(** * Corporate GHG emissions calculator

  A shallow embedding of [Practice/combine_emissions.py]: the three scope
  calculators, the footprint analysis with its hotspot ranking, the
  reduction pathway, the roadmap, the cost-benefit table and the
  orchestration in [main].

  Conventions of the embedding.
  - Python numbers ([int] and [float]) are exact rationals in canonical
    form ([Qc]), so [==] on numbers is Leibniz equality.  Rounding of IEEE
    doubles is not modelled; a decimal literal such as [0.042] denotes the
    rational 42/1000.
  - [x / y] raises [ZeroDivisionError] when [y] is zero, for integers and
    floats alike.
  - [print] is modelled by returning the printed numbers (before their
    formatting) in a report record; an exception discards the report.
  - Building a string fails above [sys.maxsize] characters; running out of
    memory below that size is not modelled.
  - The emission service is an oracle; every call made through
    [call_emission_api] is logged with its endpoint and payload.
  - The credentials read when the module is loaded are taken to be there;
    the model starts at the functions. *)

From Stdlib Require Import QArith Qcanon Lqa ZArith List String Bool.
From Stdlib Require Import Permutation Sorted.
Import ListNotations.

Open Scope Qc_scope.

(** ** Python runtime *)

Module Py.

(** A decimal literal of the source. *)
Definition dec (q : Q) : Qc := Q2Qc q.

Inductive exn : Type :=
| ZeroDivisionError
| KeyError (key : string)
| ConnectionError          (* requests.post could not reach the service *)
| MalformedBody            (* response.json() has no numeric emissions.CO2e *)
| OverflowError.           (* a repetition count above sys.maxsize *)

Inductive result (A : Type) : Type :=
| Ok (a : A)
| Raise (e : exn).
Arguments Ok {A} a.
Arguments Raise {A} e.

Definition rbind {A B} (m : result A) (f : A -> result B) : result B :=
  match m with
  | Ok a => f a
  | Raise e => Raise e
  end.

(** True division. *)
Definition div (x y : Qc) : result Qc :=
  if Qc_eq_bool y 0 then Raise ZeroDivisionError else Ok (x / y).

Definition ltb (x y : Qc) : bool :=
  match x ?= y with Lt => true | _ => false end.

(** [int(x)]: truncation toward zero. *)
Definition int_of (x : Qc) : Z := Z.quot (Qnum x) (Zpos (Qden x)).

(** [sys.maxsize] of a 64-bit build. *)
Definition sys_maxsize : Z := 2 ^ 63 - 1.

(** [c * n] for a one-character string [c]: the length of the result,
    which is empty for [n <= 0]. *)
Definition str_repeat (n : Z) : result Z :=
  if (sys_maxsize <? n)%Z then Raise OverflowError else Ok (Z.max 0 n).

(** [for x in xs: ...] where the body may raise. *)
Fixpoint for_each {A B} (f : A -> result B) (xs : list A) : result (list B) :=
  match xs with
  | [] => Ok []
  | x :: xs' =>
      rbind (f x) (fun y => rbind (for_each f xs') (fun ys => Ok (y :: ys)))
  end.

(** A [dict] from category names to amounts.  Python dictionaries keep
    insertion order, which [items()] exposes. *)
Definition dict : Type := list (string * Qc).

Fixpoint dict_get (d : dict) (k : string) : option Qc :=
  match d with
  | [] => None
  | (k', v) :: d' => if String.eqb k k' then Some v else dict_get d' k
  end.

(** [d.get(k, default)] *)
Definition dict_get_default (d : dict) (k : string) (default : Qc) : Qc :=
  match dict_get d k with Some v => v | None => default end.

(** [d[k] = v]: an existing key keeps its position, a new one goes last. *)
Fixpoint dict_set (d : dict) (k : string) (v : Qc) : dict :=
  match d with
  | [] => [(k, v)]
  | (k', v') :: d' =>
      if String.eqb k k' then (k', v) :: d' else (k', v') :: dict_set d' k v
  end.

Definition items (d : dict) : list (string * Qc) := d.

Definition values (d : dict) : list Qc := map snd d.

Definition sum (xs : list Qc) : Qc := fold_left Qcplus xs 0.

(** [list.sort(key=..., reverse=...)].  The sort is stable; with
    [reverse=True] the list is reversed, sorted in ascending order and
    reversed again, which keeps elements with equal keys in their
    original order. *)
Section Sort.
Context {A : Type} (key : A -> Qc).

Fixpoint insert_asc (x : A) (l : list A) : list A :=
  match l with
  | [] => [x]
  | y :: l' => if ltb (key y) (key x) then y :: insert_asc x l' else x :: l
  end.

Definition sort_asc (l : list A) : list A := fold_right insert_asc [] l.

Definition list_sort (reverse : bool) (l : list A) : list A :=
  if reverse then rev (sort_asc (rev l)) else sort_asc l.
End Sort.

End Py.
Import Py.


(** ** The emission factor service *)

(** [company_data["location"]] *)
Record location_t : Type := {
  country : string;
  state : string
}.

(** The JSON payloads posted to the service, reduced to the fields that
    vary; units and fixed labels are left out. *)
Inductive payload : Type :=
| StationaryPayload (fuel_type : string) (fuel_amount : Qc) (loc : location_t)
| MobilePayload (fuel_amount : Qc) (vehicle_count : Qc)
| FugitivePayload (gas_amount : Qc)
| LocationPayload (consumption_amount : Qc) (loc : location_t)
| MarketPayload (total_consumption : Qc)
                (grid_mix_amount : Qc)
                (rec_amount : Qc) (rec_emission_factor : Qc)
| BusinessTravelPayload (total_miles : Qc).

(** An HTTP response: its status code and, when the body is JSON with a
    numeric [emissions.CO2e], that number. *)
Record response : Type := {
  status_code : Z;
  co2e : option Qc
}.

(** The response of the authentication endpoint. *)
Record auth_response : Type := {
  auth_status_code : Z;
  access_token : option string
}.

(** The outside world: what [requests.post] answers.  [Raise] stands for a
    request that raises (no connection). *)
Record service : Type := {
  post_auth : result auth_response;
  post_emission : string -> payload -> string -> result response
}.

(** One logged call: endpoint and payload. *)
Definition call : Type := (string * payload)%type.

(** Computations that call the service: the calls made so far, and the
    value or the exception. *)
Definition M (A : Type) : Type := (list call * result A)%type.

Definition ret {A} (a : A) : M A := ([], Ok a).

Definition throw {A} (e : exn) : M A := ([], Raise e).

Definition bind {A B} (m : M A) (f : A -> M B) : M B :=
  match m with
  | (log, Ok a) => let (log', r) := f a in (log ++ log', r)
  | (log, Raise e) => (log, Raise e)
  end.

Definition lift {A} (r : result A) : M A := ([], r).

Definition calls {A} (m : M A) : list call := fst m.

Definition outcome {A} (m : M A) : result A := snd m.

Notation "x <- c1 ;; c2" := (bind c1 (fun x => c2))
  (at level 61, c1 at next level, right associativity).
Notation "' pat <- c1 ;; c2" := (bind c1 (fun x => match x with pat => c2 end))
  (at level 61, pat pattern, c1 at next level, right associativity).
Notation "x <-r c1 ;; c2" := (rbind c1 (fun x => c2))
  (at level 61, c1 at next level, right associativity).

(** [response.json()['emissions']['CO2e']] *)
Definition json_co2e (r : response) : result Qc :=
  match co2e r with
  | Some v => Ok v
  | None => Raise MalformedBody
  end.

(** ** The activity profile: [company_data] *)

(** The dictionary [company_data], one optional field per key the program
    reads; [None] is an absent key. *)
Record company_data_t : Type := {
  employee_count : option Qc;
  location : option location_t;
  heating_fuel : option string;
  heating_fuel_amount : option Qc;
  fleet_size : option Qc;
  fleet_fuel : option Qc;
  refrigerant_leakage : option Qc;
  electricity_consumption : option Qc;
  renewable_energy_percent : option Qc;
  annual_procurement_spend : option Qc;
  capital_expenditure : option Qc;
  annual_air_miles : option Qc;
  avg_commute_miles : option Qc;
  sells_energy_using_products : option bool;
  products_sold : option Qc;
  product_lifetime_kwh : option Qc;
  sells_physical_products : option bool;
  annual_product_weight_tonnes : option Qc
}.

(** [company_data.get(key, default)] *)
Definition get {A} (field : option A) (default : A) : A :=
  match field with
  | Some v => v
  | None => default
  end.

Definition default_location : location_t :=
  {| country := "USA"; state := "California" |}.

(** ** Step 1 and 2: authentication and the API caller *)

Definition get_auth_token (svc : service) : result (option string) :=
  response <-r post_auth svc ;;
  if (auth_status_code response =? 200)%Z then
    match access_token response with
    | Some token => Ok (Some token)
    | None => Raise (KeyError "access_token")
    end
  else Ok None.

Definition call_emission_api (svc : service) (endpoint : string)
    (payload : payload) (token : string) : M response :=
  ([(endpoint, payload)], post_emission svc endpoint payload token).

(** ** Step 3: Scope 1 *)

Definition calculate_scope1_emissions (svc : service) (token : string)
    (company_data : company_data_t) : M (Qc * dict) :=
  let scope1_total := 0 in
  let scope1_breakdown : dict := [] in
  let stationary_payload :=
    StationaryPayload (get (heating_fuel company_data) "natural_gas"%string)
                      (get (heating_fuel_amount company_data) (dec 50000))
                      (get (location company_data) default_location) in
  response <- call_emission_api svc "stationary" stationary_payload token ;;
  '(scope1_total, scope1_breakdown) <-
    (if (status_code response =? 200)%Z then
       stationary_emissions <- lift (json_co2e response) ;;
       ret (scope1_total + stationary_emissions,
            dict_set scope1_breakdown "stationary_combustion" stationary_emissions)
     else ret (scope1_total, scope1_breakdown)) ;;
  let mobile_payload :=
    MobilePayload (get (fleet_fuel company_data) (dec 10000))
                  (get (fleet_size company_data) (dec 10)) in
  response <- call_emission_api svc "mobile" mobile_payload token ;;
  '(scope1_total, scope1_breakdown) <-
    (if (status_code response =? 200)%Z then
       mobile_emissions <- lift (json_co2e response) ;;
       ret (scope1_total + mobile_emissions,
            dict_set scope1_breakdown "mobile_combustion" mobile_emissions)
     else ret (scope1_total, scope1_breakdown)) ;;
  let fugitive_payload :=
    FugitivePayload (get (refrigerant_leakage company_data) (dec 5)) in
  response <- call_emission_api svc "fugitive" fugitive_payload token ;;
  '(scope1_total, scope1_breakdown) <-
    (if (status_code response =? 200)%Z then
       fugitive_emissions <- lift (json_co2e response) ;;
       ret (scope1_total + fugitive_emissions,
            dict_set scope1_breakdown "fugitive" fugitive_emissions)
     else ret (scope1_total, scope1_breakdown)) ;;
  ret (scope1_total, scope1_breakdown).

(** ** Step 4: Scope 2 *)

Definition calculate_scope2_emissions (svc : service) (token : string)
    (company_data : company_data_t) : M (Qc * Qc) :=
  let electricity_kwh := get (electricity_consumption company_data) (dec 500000) in
  let location_payload :=
    LocationPayload electricity_kwh
                    (get (location company_data) default_location) in
  response <- call_emission_api svc "location_based" location_payload token ;;
  let location_based := 0 in
  location_based <-
    (if (status_code response =? 200)%Z then lift (json_co2e response)
     else ret location_based) ;;
  let renewable_percentage := get (renewable_energy_percent company_data) (dec 30) in
  let market_payload :=
    MarketPayload electricity_kwh
                  (electricity_kwh * (1 - renewable_percentage / dec 100))
                  (electricity_kwh * (renewable_percentage / dec 100))
                  0 in
  response <- call_emission_api svc "market_based" market_payload token ;;
  let market_based := 0 in
  market_based <-
    (if (status_code response =? 200)%Z then lift (json_co2e response)
     else ret market_based) ;;
  ret (location_based, market_based).

(** ** Step 5: Scope 3 *)

Definition calculate_scope3_emissions (svc : service) (token : string)
    (company_data : company_data_t) : M (Qc * dict) :=
  let scope3_total := 0 in
  let scope3_breakdown : dict := [] in
  (* Category 1: purchased goods and services *)
  let annual_spend := get (annual_procurement_spend company_data) (dec 5000000) in
  let purchased_goods := annual_spend * dec 0.00035 in
  let scope3_breakdown := dict_set scope3_breakdown "purchased_goods" purchased_goods in
  let scope3_total := scope3_total + purchased_goods in
  (* Category 2: capital goods *)
  let capital_spend := get (capital_expenditure company_data) (dec 1000000) in
  let capital_goods := capital_spend * dec 0.00045 in
  let scope3_breakdown := dict_set scope3_breakdown "capital_goods" capital_goods in
  let scope3_total := scope3_total + capital_goods in
  (* Category 3: fuel and energy related *)
  let fuel_energy :=
    dict_get_default scope3_breakdown "stationary_combustion" 0 * dec 0.2 in
  let scope3_breakdown := dict_set scope3_breakdown "fuel_energy_related" fuel_energy in
  let scope3_total := scope3_total + fuel_energy in
  (* Category 4: upstream transportation *)
  let upstream_transport := annual_spend * dec 0.00008 in
  let scope3_breakdown := dict_set scope3_breakdown "upstream_transport" upstream_transport in
  let scope3_total := scope3_total + upstream_transport in
  (* Category 5: waste generated *)
  let employees := get (employee_count company_data) (dec 100) in
  let waste_emissions := employees * dec 0.2 in
  let scope3_breakdown := dict_set scope3_breakdown "waste" waste_emissions in
  let scope3_total := scope3_total + waste_emissions in
  (* Category 6: business travel *)
  let business_travel_payload :=
    BusinessTravelPayload (get (annual_air_miles company_data) (dec 500000)) in
  response <- call_emission_api svc "business_travel" business_travel_payload token ;;
  business_travel <-
    (if (status_code response =? 200)%Z then lift (json_co2e response)
     else ret (get (annual_air_miles company_data) (dec 500000) * dec 0.00015)) ;;
  let scope3_breakdown := dict_set scope3_breakdown "business_travel" business_travel in
  let scope3_total := scope3_total + business_travel in
  (* Category 7: employee commuting *)
  let avg_commute_miles := get (avg_commute_miles company_data) (dec 20) in
  let working_days := dec 220 in
  let commuting := employees * avg_commute_miles * working_days * dec 0.0004 in
  let scope3_breakdown := dict_set scope3_breakdown "commuting" commuting in
  let scope3_total := scope3_total + commuting in
  (* Category 11: use of sold products *)
  let '(scope3_total, scope3_breakdown) :=
    if get (sells_energy_using_products company_data) false then
      let products_sold := get (products_sold company_data) (dec 10000) in
      let product_lifetime_energy := get (product_lifetime_kwh company_data) (dec 1000) in
      let use_of_products := products_sold * product_lifetime_energy * dec 0.0004 in
      (scope3_total + use_of_products,
       dict_set scope3_breakdown "use_of_products" use_of_products)
    else (scope3_total, scope3_breakdown) in
  (* Category 12: end-of-life treatment *)
  let '(scope3_total, scope3_breakdown) :=
    if get (sells_physical_products company_data) false then
      let product_weight := get (annual_product_weight_tonnes company_data) (dec 100) in
      let end_of_life := product_weight * dec 0.5 in
      (scope3_total + end_of_life,
       dict_set scope3_breakdown "end_of_life" end_of_life)
    else (scope3_total, scope3_breakdown) in
  ret (scope3_total, scope3_breakdown).

(** ** Step 6: the complete footprint *)

(** The dictionary [breakdowns] built in [main], with its two keys. *)
Record breakdowns_t : Type := {
  scope1_bd : dict;       (* breakdowns['scope1'] *)
  scope3_bd : dict        (* breakdowns['scope3'] *)
}.

(** The tuples [(label, amount)] of [all_categories]. *)
Definition entry : Type := (string * Qc)%type.

Definition amount (e : entry) : Qc := snd e.

(** [all_categories] before it is sorted. *)
Definition all_categories (scope2_location : Qc) (breakdowns : breakdowns_t)
    : list entry :=
  let all_categories := [] in
  let all_categories :=
    all_categories
      ++ map (fun '(category, amount) => (("Scope 1 - " ++ category)%string, amount))
             (items (scope1_bd breakdowns)) in
  let all_categories :=
    all_categories ++ [("Scope 2 - Electricity"%string, scope2_location)] in
  let all_categories :=
    all_categories
      ++ map (fun '(category, amount) => (("Scope 3 - " ++ category)%string, amount))
             (items (scope3_bd breakdowns)) in
  all_categories.

(** [all_categories] after [all_categories.sort(key=lambda x: x[1], reverse=True)]. *)
Definition sorted_categories (scope2_location : Qc) (breakdowns : breakdowns_t)
    : list entry :=
  list_sort amount true (all_categories scope2_location breakdowns).

(** What [analyze_complete_footprint] prints; the bars of the distribution
    chart are given by their lengths. *)
Record footprint_report : Type := {
  rep_total_location : Qc;
  rep_total_market : Qc;
  scope1_pct : Qc;
  scope2_pct : Qc;
  scope3_pct : Qc;
  scope1_bar : Z;
  scope2_bar : Z;
  scope3_bar : Z;
  hotspots : list (string * Qc * Qc);     (* category, amount, pct *)
  intensity : Qc;
  cars : Qc;
  homes : Qc;
  trees : Qc;
  flights : Qc
}.

Definition analyze_complete_footprint (scope1 scope2_location scope2_market
    scope3 : Qc) (breakdowns : breakdowns_t)
    : result ((Qc * Qc) * footprint_report) :=
  let total_location := scope1 + scope2_location + scope3 in
  let total_market := scope1 + scope2_market + scope3 in
  q <-r div scope1 total_location ;;
  let scope1_pct := q * dec 100 in
  q <-r div scope2_location total_location ;;
  let scope2_pct := q * dec 100 in
  q <-r div scope3 total_location ;;
  let scope3_pct := q * dec 100 in
  scope1_bar <-r str_repeat (int_of (scope1_pct / dec 2)) ;;
  scope2_bar <-r str_repeat (int_of (scope2_pct / dec 2)) ;;
  scope3_bar <-r str_repeat (int_of (scope3_pct / dec 2)) ;;
  let all_categories := sorted_categories scope2_location breakdowns in
  hotspots <-r
    for_each (fun '(category, amount) =>
                q <-r div amount total_location ;;
                let pct := q * dec 100 in
                Ok (category, amount, pct))
             (firstn 5 all_categories) ;;
  let employees := dec 100 in
  intensity <-r div total_location employees ;;
  cars <-r div total_location (dec 4.6) ;;
  homes <-r div total_location (dec 8.5) ;;
  trees <-r div total_location (dec 0.025) ;;
  flights <-r div total_location (dec 0.9) ;;
  Ok ((total_location, total_market),
      {| rep_total_location := total_location;
         rep_total_market := total_market;
         scope1_pct := scope1_pct;
         scope2_pct := scope2_pct;
         scope3_pct := scope3_pct;
         scope1_bar := scope1_bar;
         scope2_bar := scope2_bar;
         scope3_bar := scope3_bar;
         hotspots := hotspots;
         intensity := intensity;
         cars := cars;
         homes := homes;
         trees := trees;
         flights := flights |}).

(** ** Step 7: the reduction pathway *)

(** One printed line [Year y: target (reduce reduction / reduction_pct %)]. *)
Record target_line : Type := {
  year : nat;
  target : Qc;
  reduction : Qc;
  reduction_pct : Qc
}.

(** What [calculate_reduction_pathway] prints. *)
Record pathway_report : Type := {
  targets : list target_line;
  rep_target_2030 : Qc;
  rep_target_2050 : Qc;
  per_year : Qc;
  per_month : Qc;
  per_week : Qc
}.

Definition annual_reduction_rate : Qc := dec 0.042.

Definition years : list nat := [1; 3; 5; 10]%nat.

(** The body of [for year in years]. *)
Definition pathway_step (total_emissions : Qc) (year : nat) : result target_line :=
  let target := total_emissions * ((1 - annual_reduction_rate) ^ year) in
  let reduction := total_emissions - target in
  q <-r div reduction total_emissions ;;
  let reduction_pct := q * dec 100 in
  Ok {| year := year; target := target; reduction := reduction;
        reduction_pct := reduction_pct |}.

Definition calculate_reduction_pathway (total_emissions : Qc)
    : result ((Qc * Qc) * pathway_report) :=
  targets <-r for_each (pathway_step total_emissions) years ;;
  let target_2030 := total_emissions * dec 0.5 in
  let target_2050 := total_emissions * dec 0.1 in
  let years_to_2030 := dec 6 in
  annual_reduction_2030 <-r div (total_emissions - target_2030) years_to_2030 ;;
  per_month <-r div annual_reduction_2030 (dec 12) ;;
  per_week <-r div annual_reduction_2030 (dec 52) ;;
  Ok ((target_2030, target_2050),
      {| targets := targets;
         rep_target_2030 := target_2030;
         rep_target_2050 := target_2050;
         per_year := annual_reduction_2030;
         per_month := per_month;
         per_week := per_week |}).

(** ** Step 8: the reduction roadmap *)

Record roadmap_report : Type := {
  potentials : list Qc;
  total_potential : Qc;
  achievable_pct : Qc
}.

Definition create_reduction_roadmap (scope1 scope2 scope3 : Qc)
    (breakdowns : breakdowns_t) : result roadmap_report :=
  let potential_1 := scope2 * dec 0.20 in
  let potential_2 :=
    dict_get_default (scope3_bd breakdowns) "business_travel" 0 * dec 0.30 in
  let potential_3 := scope2 * dec 0.50 in
  let potential_4 :=
    dict_get_default (scope1_bd breakdowns) "mobile_combustion" 0 * dec 0.40 in
  let potential_5 :=
    dict_get_default (scope3_bd breakdowns) "purchased_goods" 0 * dec 0.25 in
  let potential_6 :=
    dict_get_default (scope1_bd breakdowns) "stationary_combustion" 0 * dec 0.60 in
  let potentials := [potential_1; potential_2; potential_3;
                     potential_4; potential_5; potential_6] in
  let total_potential := sum potentials in
  q <-r div total_potential (scope1 + scope2 + scope3) ;;
  Ok {| potentials := potentials;
        total_potential := total_potential;
        achievable_pct := q * dec 100 |}.

(** ** Step 9: costs and benefits *)

(** An entry of the list [strategies]. *)
Record strategy : Type := {
  name : string;
  cost : Qc;
  annual_savings : Qc;
  emission_reduction : Qc;
  payback_years : Qc
}.

Definition strategies : list strategy :=
  [ {| name := "LED Lighting"; cost := dec 50000; annual_savings := dec 15000;
       emission_reduction := dec 50; payback_years := dec 3.3 |};
    {| name := "Solar Installation"; cost := dec 500000; annual_savings := dec 75000;
       emission_reduction := dec 200; payback_years := dec 6.7 |};
    {| name := "Fleet Electrification"; cost := dec 200000; annual_savings := dec 30000;
       emission_reduction := dec 100; payback_years := dec 6.7 |};
    {| name := "Building Insulation"; cost := dec 100000; annual_savings := dec 20000;
       emission_reduction := dec 75; payback_years := dec 5.0 |} ].

(** The lines printed for one strategy. *)
Record strategy_line : Type := {
  line_name : string;
  investment : Qc;
  energy_savings : Qc;
  carbon_value : Qc;
  total_value : Qc;
  payback_period : Qc
}.

(** The body of [for strategy in strategies]; [carbon_price] is the local
    variable of the enclosing function. *)
Definition strategy_report (carbon_price : Qc) (strategy : strategy) : strategy_line :=
  let carbon_value := emission_reduction strategy * carbon_price in
  let total_annual_value := annual_savings strategy + carbon_value in
  {| line_name := name strategy;
     investment := cost strategy;
     energy_savings := annual_savings strategy;
     carbon_value := carbon_value;
     total_value := total_annual_value;
     payback_period := payback_years strategy |}.

Record cost_benefit_report : Type := {
  liability_at_50 : Qc;
  liability_at_100 : Qc;
  lines : list strategy_line
}.

Definition analyze_costs_and_benefits (total_emissions : Qc) : cost_benefit_report :=
  let carbon_price := dec 50 in
  let annual_carbon_cost := total_emissions * carbon_price in
  {| liability_at_50 := annual_carbon_cost;
     liability_at_100 := annual_carbon_cost * dec 2;
     lines := map (strategy_report carbon_price) strategies |}.

(** ** Step 10: orchestration *)

(** The example [company_data] of [main]. *)
Definition example_company_data : company_data_t :=
  {| employee_count := Some (dec 100);
     location := Some {| country := "USA"; state := "California" |};
     heating_fuel := Some "natural_gas"%string;
     heating_fuel_amount := Some (dec 50000);
     fleet_size := Some (dec 10);
     fleet_fuel := Some (dec 10000);
     refrigerant_leakage := Some (dec 5);
     electricity_consumption := Some (dec 500000);
     renewable_energy_percent := Some (dec 30);
     annual_procurement_spend := Some (dec 5000000);
     capital_expenditure := Some (dec 1000000);
     annual_air_miles := Some (dec 500000);
     avg_commute_miles := Some (dec 20);
     sells_energy_using_products := Some false;
     products_sold := None;
     product_lifetime_kwh := None;
     sells_physical_products := Some false;
     annual_product_weight_tonnes := None |}.

(** Everything a completed run has computed and printed. *)
Record run_report : Type := {
  run_scope1 : Qc * dict;
  run_scope2 : Qc * Qc;
  run_scope3 : Qc * dict;
  run_footprint : footprint_report;
  run_pathway : pathway_report;
  run_roadmap : roadmap_report;
  run_costs : cost_benefit_report;
  per_employee : Qc;
  scope3_share : Qc;
  renewable_effect : Qc
}.

(** [main] from the authentication on, for a given [company_data].  [None]
    is the early return when no token was obtained. *)
Definition run (svc : service) (company_data : company_data_t)
    : M (option run_report) :=
  token <- lift (get_auth_token svc) ;;
  match token with
  | None => ret None
  | Some ""%string => ret None
  | Some token =>
      '(scope1, scope1_breakdown) <- calculate_scope1_emissions svc token company_data ;;
      '(scope2_location, scope2_market) <- calculate_scope2_emissions svc token company_data ;;
      '(scope3, scope3_breakdown) <- calculate_scope3_emissions svc token company_data ;;
      let breakdowns := {| scope1_bd := scope1_breakdown;
                           scope3_bd := scope3_breakdown |} in
      '((total_location, total_market), footprint) <-
        lift (analyze_complete_footprint scope1 scope2_location scope2_market
                                         scope3 breakdowns) ;;
      '((target_2030, target_2050), pathway) <-
        lift (calculate_reduction_pathway total_location) ;;
      roadmap <- lift (create_reduction_roadmap scope1 scope2_location scope3 breakdowns) ;;
      let costs := analyze_costs_and_benefits total_location in
      employee_count <-
        match employee_count company_data with
        | Some n => ret n
        | None => throw (KeyError "employee_count")
        end ;;
      per_employee <- lift (div total_location employee_count) ;;
      q <- lift (div scope3 total_location) ;;
      let scope3_share := q * dec 100 in
      q <- lift (div (scope2_location - scope2_market) scope2_location) ;;
      let renewable_effect := q * dec 100 in
      ret (Some {| run_scope1 := (scope1, scope1_breakdown);
                   run_scope2 := (scope2_location, scope2_market);
                   run_scope3 := (scope3, scope3_breakdown);
                   run_footprint := footprint;
                   run_pathway := pathway;
                   run_roadmap := roadmap;
                   run_costs := costs;
                   per_employee := per_employee;
                   scope3_share := scope3_share;
                   renewable_effect := renewable_effect |})
  end.

Definition main (svc : service) : M (option run_report) :=
  run svc example_company_data.

(** ** Vocabulary of the statements *)

(** Orders on entries by their key, and the entries of [l] whose key is
    [k], in the order of [l]. *)
Definition le_key {A} (key : A -> Qc) (x y : A) : Prop := key x <= key y.

Definition ge_key {A} (key : A -> Qc) (x y : A) : Prop := key y <= key x.

Definition with_key {A} (key : A -> Qc) (k : Qc) (l : list A) : list A :=
  filter (fun x => Qc_eq_bool (key x) k) l.

(** A hotspot with its share of [total_location], in percent. *)
Definition hotspot_line (total_location : Qc) (e : entry) : string * Qc * Qc :=
  (fst e, amount e, amount e / total_location * dec 100).


(** A request that is answered, with a readable body when the status is 200. *)
Definition answered (svc : service) (token endpoint : string) (p : payload)
    (r : response) : Prop :=
  post_emission svc endpoint p token = Ok r /\
  (status_code r = 200%Z -> co2e r <> None).

(** The line printed for horizon [h] from a baseline. *)
Definition expected_target (baseline : Qc) (h : nat) : target_line :=
  {| year := h;
     target := baseline * (1 - dec 0.042) ^ h;
     reduction := baseline - baseline * (1 - dec 0.042) ^ h;
     reduction_pct :=
       (baseline - baseline * (1 - dec 0.042) ^ h) / baseline * dec 100 |}.

(** [x] is [y] to one decimal place. *)
Definition approx1 (x y : Qc) : Prop := y - dec 0.05 <= x /\ x <= y + dec 0.05.

(** ** Sample worlds and profiles *)

Definition http (status : Z) (body : option Qc) : result response :=
  Ok {| status_code := status; co2e := body |}.

Definition token_granted : result auth_response :=
  Ok {| auth_status_code := 200; access_token := Some "token"%string |}.

(** Every emission endpoint answers 503. *)
Definition svc_unavailable : service :=
  {| post_auth := token_granted;
     post_emission := fun _ _ _ => http 503 None |}.

(** Stationary combustion, both electricity methods and business travel
    are answered; mobile and fugitive are not. *)
Definition svc_partial : service :=
  {| post_auth := token_granted;
     post_emission := fun endpoint _ _ =>
       if String.eqb endpoint "stationary" then http 200 (Some (dec 100))
       else if String.eqb endpoint "location_based" then http 200 (Some (dec 250))
       else if String.eqb endpoint "market_based" then http 200 (Some (dec 175))
       else if String.eqb endpoint "business_travel" then http 200 (Some (dec 75))
       else http 503 None |}.

(** A service that applies one factor per kWh to every electricity source
    that does not state its own. *)
Definition svc_grid (factor : Qc) : service :=
  {| post_auth := token_granted;
     post_emission := fun _ p _ =>
       match p with
       | LocationPayload consumption _ => http 200 (Some (factor * consumption))
       | MarketPayload _ grid rec rec_factor =>
           http 200 (Some (factor * grid + rec_factor * rec))
       | _ => http 404 None
       end |}.

(** The example profile with a negative fuel amount, a renewable share of
    150 percent and a negative employee count. *)
Definition invalid_company_data : company_data_t :=
  {| employee_count := Some (dec (-5));
     location := location example_company_data;
     heating_fuel := heating_fuel example_company_data;
     heating_fuel_amount := Some (dec (-50000));
     fleet_size := fleet_size example_company_data;
     fleet_fuel := fleet_fuel example_company_data;
     refrigerant_leakage := refrigerant_leakage example_company_data;
     electricity_consumption := electricity_consumption example_company_data;
     renewable_energy_percent := Some (dec 150);
     annual_procurement_spend := annual_procurement_spend example_company_data;
     capital_expenditure := capital_expenditure example_company_data;
     annual_air_miles := annual_air_miles example_company_data;
     avg_commute_miles := avg_commute_miles example_company_data;
     sells_energy_using_products := Some false;
     products_sold := None;
     product_lifetime_kwh := None;
     sells_physical_products := Some false;
     annual_product_weight_tonnes := None |}.

(** How a request fails: it raises, or it is a 200 whose body has no
    [emissions.CO2e]. *)
Definition request_failure (x : result response) : option exn :=
  match x with
  | Raise e => Some e
  | Ok r =>
      if (status_code r =? 200)%Z
      then match co2e r with
           | Some _ => None
           | None => Some MalformedBody
           end
      else None
  end.

(** The amount a Scope 2 method ends up with: the service's on a 200,
    otherwise the initial 0. *)
Definition amount_or_zero (r : response) : Qc :=
  if (status_code r =? 200)%Z then get (co2e r) 0 else 0.

(** The authentication endpoint answers 401. *)
Definition svc_denied : service :=
  {| post_auth := Ok {| auth_status_code := 401; access_token := None |};
     post_emission := fun _ _ _ => http 200 (Some (dec 1)) |}.

(** A token is granted, but no emission endpoint can be reached. *)
Definition svc_offline : service :=
  {| post_auth := token_granted;
     post_emission := fun _ _ _ => Raise ConnectionError |}.

(** An office with 120000 kWh of electricity, 40 percent of it renewable. *)
Definition office_company_data : company_data_t :=
  {| employee_count := Some (dec 22); location := None; heating_fuel := None;
     heating_fuel_amount := Some (dec 8000); fleet_size := Some (dec 3);
     fleet_fuel := Some (dec 1200); refrigerant_leakage := Some (dec 2);
     electricity_consumption := Some (dec 120000);
     renewable_energy_percent := Some (dec 40);
     annual_procurement_spend := Some (dec 900000);
     capital_expenditure := Some (dec 150000);
     annual_air_miles := Some (dec 60000);
     avg_commute_miles := Some (dec 12); sells_energy_using_products := None;
     products_sold := None; product_lifetime_kwh := None;
     sells_physical_products := Some true;
     annual_product_weight_tonnes := Some (dec 30) |}.

(** A profile whose electricity consumption is -100 kWh. *)
Definition negative_consumption_data : company_data_t :=
  {| employee_count := Some (dec 22); location := None; heating_fuel := None;
     heating_fuel_amount := None; fleet_size := None; fleet_fuel := None;
     refrigerant_leakage := None;
     electricity_consumption := Some (dec (-100));
     renewable_energy_percent := Some (dec 30);
     annual_procurement_spend := None; capital_expenditure := None;
     annual_air_miles := None; avg_commute_miles := None;
     sells_energy_using_products := None; products_sold := None;
     product_lifetime_kwh := None; sells_physical_products := None;
     annual_product_weight_tonnes := None |}.

(** A profile without any key. *)
Definition empty_company_data : company_data_t :=
  {| employee_count := None; location := None; heating_fuel := None;
     heating_fuel_amount := None; fleet_size := None; fleet_fuel := None;
     refrigerant_leakage := None; electricity_consumption := None;
     renewable_energy_percent := None; annual_procurement_spend := None;
     capital_expenditure := None; annual_air_miles := None;
     avg_commute_miles := None; sells_energy_using_products := None;
     products_sold := None; product_lifetime_kwh := None;
     sells_physical_products := None; annual_product_weight_tonnes := None |}.

(** The quantities Scope 3 reads from a profile, with the defaults it
    uses for absent keys, are all non-negative. *)
Definition nonnegative_scope3_inputs (cd : company_data_t) : Prop :=
  0 <= get (annual_procurement_spend cd) (dec 5000000) /\
  0 <= get (capital_expenditure cd) (dec 1000000) /\
  0 <= get (employee_count cd) (dec 100) /\
  0 <= get (annual_air_miles cd) (dec 500000) /\
  0 <= get (avg_commute_miles cd) (dec 20) /\
  0 <= get (products_sold cd) (dec 10000) /\
  0 <= get (product_lifetime_kwh cd) (dec 1000) /\
  0 <= get (annual_product_weight_tonnes cd) (dec 100).

(** * Properties *)

(** ** Numbers *)

#[local] Arguments Qcplus : simpl never.
#[local] Arguments Qcmult : simpl never.
#[local] Arguments Qcminus : simpl never.
#[local] Arguments Qcdiv : simpl never.
#[local] Arguments Qcopp : simpl never.
#[local] Arguments Qcinv : simpl never.
#[local] Arguments Q2Qc : simpl never.

Lemma qc_eq (x y : Qc) : Qc_eq_bool x y = true -> x = y.
Proof. apply Qc_eq_bool_correct. Qed.

Lemma Qc_eq_bool_true_iff (x y : Qc) : Qc_eq_bool x y = true <-> x = y.
Proof.
  split; [apply Qc_eq_bool_correct|].
  intros ->. unfold Qc_eq_bool. destruct (Qc_eq_dec y y); congruence.
Qed.

Lemma Qc_eq_bool_false_iff (x y : Qc) : Qc_eq_bool x y = false <-> x <> y.
Proof.
  rewrite <- Qc_eq_bool_true_iff. destruct (Qc_eq_bool x y); split; congruence.
Qed.

(** Closed equations and inequalities between rationals, by evaluation. *)
Ltac qc_compute :=
  match goal with
  | |- @eq Qc _ _ => apply qc_eq; vm_compute; reflexivity
  | |- ~ @eq Qc _ _ => apply Qc_eq_bool_false_iff; vm_compute; reflexivity
  | |- Qclt _ _ => vm_compute; reflexivity
  | |- Qcle _ _ => vm_compute; discriminate
  end.

Lemma ltb_lt (x y : Qc) : ltb x y = true <-> x < y.
Proof.
  unfold ltb. rewrite Qclt_alt. destruct (x ?= y); split; congruence.
Qed.

Lemma ltb_ge (x y : Qc) : ltb x y = false <-> y <= x.
Proof.
  split; intros H.
  - apply Qcnot_lt_le. rewrite <- ltb_lt. congruence.
  - destruct (ltb x y) eqn:E; [|reflexivity].
    apply ltb_lt in E. exfalso. exact (Qcle_not_lt _ _ H E).
Qed.

Lemma div_ok (x y : Qc) : y <> 0 -> div x y = Ok (x / y).
Proof.
  intros H. unfold div. apply Qc_eq_bool_false_iff in H. now rewrite H.
Qed.

Lemma div_zero (x : Qc) : div x 0 = Raise ZeroDivisionError.
Proof. reflexivity. Qed.

Lemma div_raises (x y : Qc) : div x y = Raise ZeroDivisionError <-> y = 0.
Proof.
  unfold div. destruct (Qc_eq_bool y 0) eqn:E.
  - apply Qc_eq_bool_true_iff in E. tauto.
  - apply Qc_eq_bool_false_iff in E. split; [discriminate | contradiction].
Qed.

(** ** The stable sort *)

Section SortFacts.
Context {A : Type} (key : A -> Qc).


Lemma insert_asc_perm (x : A) (l : list A) :
  Permutation (x :: l) (insert_asc key x l).
Proof.
  induction l as [|y l IH]; simpl; [reflexivity|].
  destruct (ltb (key y) (key x)); [|reflexivity].
  rewrite perm_swap. now apply perm_skip.
Qed.

Lemma sort_asc_perm (l : list A) : Permutation l (sort_asc key l).
Proof.
  induction l as [|x l IH]; simpl; [reflexivity|].
  rewrite <- insert_asc_perm. now apply perm_skip.
Qed.

Lemma insert_asc_sorted (x : A) (l : list A) :
  StronglySorted (le_key key) l -> StronglySorted (le_key key) (insert_asc key x l).
Proof.
  induction 1 as [|y l Hl IH Hy]; simpl.
  - constructor; constructor.
  - destruct (ltb (key y) (key x)) eqn:E.
    + constructor; [exact IH|].
      apply ltb_lt in E.
      rewrite Forall_forall in *. intros z Hz.
      apply (Permutation_in _ (Permutation_sym (insert_asc_perm x l))) in Hz.
      destruct Hz as [<- | Hz]; [now apply Qclt_le_weak | now apply Hy].
    + apply ltb_ge in E.
      constructor; [now constructor|].
      constructor; [exact E|].
      rewrite Forall_forall in *. intros z Hz.
      unfold le_key. apply Qcle_trans with (key y); [exact E | now apply Hy].
Qed.

Lemma sort_asc_sorted (l : list A) : StronglySorted (le_key key) (sort_asc key l).
Proof.
  induction l as [|x l IH]; simpl; [constructor | now apply insert_asc_sorted].
Qed.

Lemma insert_asc_with_key (k : Qc) (x : A) (l : list A) :
  with_key key k (insert_asc key x l) = with_key key k (x :: l).
Proof.
  induction l as [|y l IH]; [reflexivity|].
  simpl insert_asc. destruct (ltb (key y) (key x)) eqn:E; [|reflexivity].
  apply ltb_lt in E.
  unfold with_key in *. simpl in *. rewrite IH.
  destruct (Qc_eq_bool (key x) k) eqn:Ex; [|reflexivity].
  destruct (Qc_eq_bool (key y) k) eqn:Ey; [|reflexivity].
  apply Qc_eq_bool_true_iff in Ex, Ey. rewrite Ex, Ey in E.
  exfalso. exact (Qclt_not_eq _ _ E eq_refl).
Qed.

Lemma sort_asc_with_key (k : Qc) (l : list A) :
  with_key key k (sort_asc key l) = with_key key k l.
Proof.
  induction l as [|x l IH]; [reflexivity|].
  simpl sort_asc. rewrite insert_asc_with_key.
  unfold with_key in *. simpl. now rewrite IH.
Qed.

Lemma with_key_rev (k : Qc) (l : list A) :
  with_key key k (rev l) = rev (with_key key k l).
Proof.
  unfold with_key. induction l as [|x l IH]; [reflexivity|].
  simpl. rewrite filter_app, IH. simpl.
  destruct (Qc_eq_bool (key x) k); simpl; [reflexivity | now rewrite app_nil_r].
Qed.

Lemma StronglySorted_app_inv (R : A -> A -> Prop) (l1 l2 : list A) :
  StronglySorted R (l1 ++ l2) ->
  StronglySorted R l1 /\ StronglySorted R l2 /\
  forall x y, In x l1 -> In y l2 -> R x y.
Proof.
  induction l1 as [|a l1 IH]; simpl; intros H.
  - repeat split; [constructor | exact H | contradiction].
  - inversion H as [|? ? Hs Hf]; subst.
    destruct (IH Hs) as (H1 & H2 & H3).
    rewrite Forall_forall in Hf.
    repeat split; [|exact H2|].
    + constructor; [exact H1|].
      rewrite Forall_forall. intros z Hz. apply Hf, in_or_app. now left.
    + intros x y [<- | Hx] Hy; [apply Hf, in_or_app; now right | now apply H3].
Qed.

Lemma StronglySorted_snoc (R : A -> A -> Prop) (l : list A) (x : A) :
  StronglySorted R l -> Forall (fun y => R y x) l ->
  StronglySorted R (l ++ [x]).
Proof.
  induction 1 as [|a l Hl IH Ha]; simpl; intros Hf.
  - constructor; constructor.
  - inversion Hf; subst. constructor; [now apply IH|].
    rewrite Forall_app. split; [exact Ha | now constructor].
Qed.

Lemma StronglySorted_rev (l : list A) :
  StronglySorted (le_key key) l -> StronglySorted (ge_key key) (rev l).
Proof.
  induction 1 as [|x l Hl IH Hx]; simpl; [constructor|].
  apply StronglySorted_snoc; [exact IH|].
  rewrite Forall_forall in *. intros y Hy.
  apply in_rev in Hy. now apply Hx.
Qed.

(** [list.sort(key=key, reverse=True)] permutes the list, puts the keys in
    descending order and keeps entries with equal keys in their order. *)
Lemma list_sort_reverse_perm (l : list A) :
  Permutation l (list_sort key true l).
Proof.
  unfold list_sort. rewrite <- Permutation_rev, <- sort_asc_perm.
  apply Permutation_rev.
Qed.

Lemma list_sort_reverse_sorted (l : list A) :
  StronglySorted (ge_key key) (list_sort key true l).
Proof. apply StronglySorted_rev, sort_asc_sorted. Qed.

Lemma list_sort_reverse_stable (k : Qc) (l : list A) :
  with_key key k (list_sort key true l) = with_key key k l.
Proof.
  unfold list_sort.
  now rewrite with_key_rev, sort_asc_with_key, with_key_rev, rev_involutive.
Qed.

Lemma list_sort_reverse_order (l l1 l2 l3 : list A) (x y : A) :
  list_sort key true l = l1 ++ x :: l2 ++ y :: l3 -> key y <= key x.
Proof.
  intros E. pose proof (list_sort_reverse_sorted l) as H. rewrite E in H.
  apply StronglySorted_app_inv in H. destruct H as (_ & H & _).
  inversion H as [|? ? _ Hf]; subst.
  rewrite Forall_forall in Hf. apply Hf, in_or_app. right. now left.
Qed.

End SortFacts.

(** ** Exceptions, the call log and dictionaries *)

Lemma Ok_inj {A} (a b : A) : Ok a = Ok b -> a = b.
Proof. intros H. now injection H. Qed.

Lemma rbind_ok_inv {A B} (m : result A) (f : A -> result B) (b : B) :
  rbind m f = Ok b -> exists a, m = Ok a /\ f a = Ok b.
Proof. destruct m as [a|e]; simpl; [eauto | discriminate]. Qed.

Lemma for_each_ok {A B} (f : A -> result B) (g : A -> B) (xs : list A) :
  (forall x, In x xs -> f x = Ok (g x)) -> for_each f xs = Ok (map g xs).
Proof.
  induction xs as [|x xs IH]; intros H; [reflexivity|].
  simpl. rewrite (H x) by now left. simpl.
  rewrite IH; [reflexivity|]. intros y Hy. apply H. now right.
Qed.

Lemma outcome_bind {A B} (m : M A) (f : A -> M B) :
  outcome (bind m f) =
  match outcome m with
  | Ok a => outcome (f a)
  | Raise e => Raise e
  end.
Proof.
  destruct m as [log [a|e]]; simpl; [|reflexivity].
  now destruct (f a).
Qed.

Lemma calls_bind {A B} (m : M A) (f : A -> M B) :
  calls (bind m f) =
  calls m ++ match outcome m with
             | Ok a => calls (f a)
             | Raise _ => []
             end.
Proof.
  destruct m as [log [a|e]]; simpl; [|now rewrite app_nil_r].
  now destruct (f a).
Qed.

Lemma outcome_bind_inv {A B} (m : M A) (f : A -> M B) (b : B) :
  outcome (bind m f) = Ok b ->
  exists a, outcome m = Ok a /\ outcome (f a) = Ok b.
Proof.
  rewrite outcome_bind. destruct (outcome m) as [a|e]; [eauto | discriminate].
Qed.

Lemma outcome_lift {A} (r : result A) : outcome (lift r) = r.
Proof. reflexivity. Qed.

Lemma dict_get_set_eq (d : dict) (k : string) (v : Qc) :
  dict_get (dict_set d k v) k = Some v.
Proof.
  induction d as [|[k' v'] d IH]; simpl.
  - now rewrite String.eqb_refl.
  - destruct (String.eqb k k') eqn:E; simpl; rewrite E; [|exact IH].
    reflexivity.
Qed.

Lemma dict_get_set_neq (d : dict) (k k' : string) (v : Qc) :
  k <> k' -> dict_get (dict_set d k' v) k = dict_get d k.
Proof.
  intros Hk. apply String.eqb_neq in Hk.
  induction d as [|[k0 v0] d IH]; simpl.
  - now rewrite Hk.
  - destruct (String.eqb k' k0) eqn:E; simpl.
    + apply String.eqb_eq in E. subst k0. now rewrite Hk.
    + now rewrite IH.
Qed.

(** Lookups in a dictionary built from literal keys. *)
Ltac dict_lookup :=
  cbn [dict_set dict_get dict_get_default String.eqb Ascii.eqb Bool.eqb];
  try reflexivity.

(** ** The footprint analysis *)

Lemma str_repeat_ok (n : Z) :
  (n <= sys_maxsize)%Z -> str_repeat n = Ok (Z.max 0 n).
Proof.
  intros H. unfold str_repeat.
  destruct (sys_maxsize <? n)%Z eqn:E; [|reflexivity].
  apply Z.ltb_lt in E. exfalso. exact (proj1 (Z.lt_nge _ _) E H).
Qed.

Lemma str_repeat_ok_inv (n len : Z) :
  str_repeat n = Ok len -> (n <= sys_maxsize)%Z /\ len = Z.max 0 n.
Proof.
  unfold str_repeat. destruct (sys_maxsize <? n)%Z eqn:E; [discriminate|].
  intros H. apply Ok_inj in H. split; [|now symmetry].
  apply Z.ltb_ge. exact E.
Qed.

(** What a returned analysis holds. *)
Lemma analyze_complete_footprint_inv (scope1 scope2_location scope2_market
    scope3 : Qc) (breakdowns : breakdowns_t) (ret : Qc * Qc)
    (rep : footprint_report) :
  analyze_complete_footprint scope1 scope2_location scope2_market scope3
                             breakdowns = Ok (ret, rep) ->
  scope1 + scope2_location + scope3 <> 0 /\
  ret = (scope1 + scope2_location + scope3, scope1 + scope2_market + scope3) /\
  rep_total_location rep = scope1 + scope2_location + scope3 /\
  scope1_pct rep = scope1 / (scope1 + scope2_location + scope3) * dec 100 /\
  scope2_pct rep = scope2_location / (scope1 + scope2_location + scope3) * dec 100 /\
  scope3_pct rep = scope3 / (scope1 + scope2_location + scope3) * dec 100 /\
  hotspots rep = map (hotspot_line (scope1 + scope2_location + scope3))
                     (firstn 5 (sorted_categories scope2_location breakdowns)) /\
  intensity rep = (scope1 + scope2_location + scope3) / dec 100.
Proof.
  intros E.
  set (total_location := scope1 + scope2_location + scope3) in *.
  assert (H : total_location <> 0).
  { intros Hz. unfold analyze_complete_footprint in E.
    fold total_location in E. rewrite Hz, div_zero in E. discriminate E. }
  split; [exact H|].
  unfold analyze_complete_footprint in E. fold total_location in E.
  rewrite !(div_ok _ total_location) in E by exact H. cbn [rbind] in E.
  destruct (str_repeat (int_of (scope1 / total_location * dec 100 / dec 2)))
    as [bar1|e1]; [|discriminate E].
  cbn [rbind] in E.
  destruct (str_repeat (int_of (scope2_location / total_location * dec 100 / dec 2)))
    as [bar2|e2]; [|discriminate E].
  cbn [rbind] in E.
  destruct (str_repeat (int_of (scope3 / total_location * dec 100 / dec 2)))
    as [bar3|e3]; [|discriminate E].
  cbn [rbind] in E.
  rewrite (for_each_ok _ (hotspot_line total_location)) in E
    by (intros [category a] _; now rewrite div_ok by exact H).
  cbn [rbind] in E. rewrite !div_ok in E by qc_compute. cbn [rbind] in E.
  apply Ok_inj in E. injection E as <- <-.
  cbn [rep_total_location scope1_pct scope2_pct scope3_pct hotspots intensity].
  now repeat split.
Qed.

(** The analysis returns when the total is not 0 and no bar is longer
    than [sys.maxsize]. *)
Lemma analyze_complete_footprint_returns (scope1 scope2_location scope2_market
    scope3 : Qc) (breakdowns : breakdowns_t) :
  let total_location := scope1 + scope2_location + scope3 in
  total_location <> 0 ->
  (int_of (scope1 / total_location * dec 100 / dec 2) <= sys_maxsize)%Z ->
  (int_of (scope2_location / total_location * dec 100 / dec 2) <= sys_maxsize)%Z ->
  (int_of (scope3 / total_location * dec 100 / dec 2) <= sys_maxsize)%Z ->
  exists ret rep,
    analyze_complete_footprint scope1 scope2_location scope2_market scope3
                               breakdowns = Ok (ret, rep).
Proof.
  intros total_location H B1 B2 B3. unfold analyze_complete_footprint.
  fold total_location.
  rewrite !(div_ok _ total_location) by exact H. cbn [rbind].
  rewrite (str_repeat_ok _ B1). cbn [rbind].
  rewrite (str_repeat_ok _ B2). cbn [rbind].
  rewrite (str_repeat_ok _ B3). cbn [rbind].
  rewrite (for_each_ok _ (hotspot_line total_location))
    by (intros [category a] _; now rewrite div_ok by exact H).
  cbn [rbind]. rewrite !div_ok by qc_compute. cbn [rbind].
  do 2 eexists. reflexivity.
Qed.

(** C2 (as amended): for every input whose [total_location] is zero, the
    footprint analysis raises a division error at the first per-scope
    share; it reports neither shares nor hotspots, and has no value that
    stands for an undefined share. *)
Theorem C2_zero_total_raises (scope1 scope2_location scope2_market scope3 : Qc)
    (breakdowns : breakdowns_t) :
  scope1 + scope2_location + scope3 = 0 ->
  analyze_complete_footprint scope1 scope2_location scope2_market scope3
                             breakdowns = Raise ZeroDivisionError.
Proof.
  intros H. unfold analyze_complete_footprint.
  rewrite H. rewrite div_zero. reflexivity.
Qed.

Lemma C2_zero_total_raises_witness :
  dec 40 + dec (-50) + dec 10 = 0 /\
  analyze_complete_footprint (dec 40) (dec (-50)) (dec (-50)) (dec 10)
    {| scope1_bd := [("stationary_combustion"%string, dec 40)];
       scope3_bd := [("waste"%string, dec 10)] |} = Raise ZeroDivisionError.
Proof.
  split; [qc_compute|].
  apply (C2_zero_total_raises (dec 40) (dec (-50)) (dec (-50)) (dec 10)).
  qc_compute.
Defined.

(** C2 fails as stated: with no Scope 1 entry, no electricity and a Scope 3
    breakdown of zero amounts, [total_location] is zero and the analysis
    raises [ZeroDivisionError] instead of returning a report. *)
Lemma C2_counterexample :
  analyze_complete_footprint 0 0 0 0
    {| scope1_bd := [];
       scope3_bd := [("purchased_goods"%string, 0); ("capital_goods"%string, 0);
                     ("fuel_energy_related"%string, 0)] |}
  = Raise ZeroDivisionError /\
  ~ exists out,
      analyze_complete_footprint 0 0 0 0
        {| scope1_bd := [];
           scope3_bd := [("purchased_goods"%string, 0); ("capital_goods"%string, 0);
                         ("fuel_energy_related"%string, 0)] |} = Ok out.
Proof.
  split; [reflexivity|]. intros [out H]. discriminate H.
Qed.

(** C8: the hotspot list flattens the Scope 1 entries, one
    "Scope 2 - Electricity" entry with the location-based amount and the
    Scope 3 entries; the ranking is a permutation of that list in
    descending order of amount (an entry never precedes one with a larger
    amount), entries with equal amounts keep their insertion order, and the
    first five are reported, in every report the analysis returns, with
    their share of [total_location]. *)
Theorem C8_hotspots_stable_descending (scope1 scope2_location scope2_market
    scope3 : Qc) (breakdowns : breakdowns_t) (ret : Qc * Qc)
    (rep : footprint_report) :
  let total_location := scope1 + scope2_location + scope3 in
  let flat : list entry :=
    map (fun '(c, a) => (("Scope 1 - " ++ c)%string, a)) (scope1_bd breakdowns)
    ++ [("Scope 2 - Electricity"%string, scope2_location)]
    ++ map (fun '(c, a) => (("Scope 3 - " ++ c)%string, a)) (scope3_bd breakdowns) in
  let ranked := sorted_categories scope2_location breakdowns in
  analyze_complete_footprint scope1 scope2_location scope2_market scope3
                             breakdowns = Ok (ret, rep) ->
  Permutation flat ranked /\
  (forall l1 x l2 y l3,
      ranked = l1 ++ x :: l2 ++ y :: l3 -> amount y <= amount x) /\
  (forall a, with_key amount a ranked = with_key amount a flat) /\
  hotspots rep = map (hotspot_line total_location) (firstn 5 ranked).
Proof.
  intros total_location flat ranked E.
  assert (Hflat : all_categories scope2_location breakdowns = flat).
  { unfold all_categories, flat, items. simpl. now rewrite <- app_assoc. }
  apply analyze_complete_footprint_inv in E.
  destruct E as (_ & _ & _ & _ & _ & _ & Hh & _).
  split; [|split; [|split; [|exact Hh]]];
    unfold ranked, sorted_categories; rewrite Hflat.
  - apply list_sort_reverse_perm.
  - intros l1 x l2 y l3. apply list_sort_reverse_order.
  - intros a. apply list_sort_reverse_stable.
Qed.

Lemma C8_hotspots_stable_descending_witness :
  exists ret rep,
    analyze_complete_footprint (dec 100) (dec 250) (dec 175) (dec 650)
      {| scope1_bd := [("stationary_combustion"%string, dec 100)];
         scope3_bd := [("waste"%string, dec 250); ("commuting"%string, dec 400)] |}
    = Ok (ret, rep) /\
    map fst (map fst (hotspots rep)) =
      ["Scope 3 - commuting"; "Scope 2 - Electricity"; "Scope 3 - waste";
       "Scope 1 - stationary_combustion"]%string.
Proof.
  destruct (analyze_complete_footprint (dec 100) (dec 250) (dec 175) (dec 650)
              {| scope1_bd := [("stationary_combustion"%string, dec 100)];
                 scope3_bd := [("waste"%string, dec 250);
                               ("commuting"%string, dec 400)] |})
    as [[ret rep]|e] eqn:E; [|vm_compute in E; discriminate E].
  exists ret, rep. split; [reflexivity|].
  destruct (C8_hotspots_stable_descending _ _ _ _ _ _ _ E) as (_ & _ & _ & Hh).
  rewrite Hh. reflexivity.
Defined.

(** C10: in every report the complete-footprint analysis returns, the
    intensity per employee is [total_location / 100]; the profile's
    employee count is not an input, and dividing the total by any employee
    count other than 100 gives another number (or raises). *)
Theorem C10_intensity_uses_constant_100 (scope1 scope2_location scope2_market
    scope3 : Qc) (breakdowns : breakdowns_t) (ret : Qc * Qc)
    (rep : footprint_report) :
  let total_location := scope1 + scope2_location + scope3 in
  analyze_complete_footprint scope1 scope2_location scope2_market scope3
                             breakdowns = Ok (ret, rep) ->
  total_location <> 0 /\
  intensity rep = total_location / dec 100 /\
  forall employee_count,
    employee_count <> dec 100 ->
    div total_location employee_count <> Ok (intensity rep).
Proof.
  intros total_location E.
  apply analyze_complete_footprint_inv in E.
  destruct E as (H & _ & _ & _ & _ & _ & _ & Hi).
  fold total_location in H, Hi.
  split; [exact H|]. split; [exact Hi|]. rewrite Hi.
  intros n Hn. unfold div.
  destruct (Qc_eq_bool n 0) eqn:E; [discriminate|].
  apply Qc_eq_bool_false_iff in E. intros Hd. apply Ok_inj in Hd.
  apply Hn.
  assert (H100 : dec 100 <> 0) by qc_compute.
  transitivity (total_location / (total_location / n)).
  - field. split; assumption.
  - rewrite Hd. field. split; assumption.
Qed.

Lemma C10_intensity_uses_constant_100_witness :
  exists ret rep,
    analyze_complete_footprint (dec 500) (dec 250) (dec 175) (dec 2250)
      {| scope1_bd := []; scope3_bd := [] |} = Ok (ret, rep) /\
    intensity rep = dec 30 /\
    div (dec 500 + dec 250 + dec 2250) (dec 40) <> Ok (intensity rep).
Proof.
  destruct (analyze_complete_footprint (dec 500) (dec 250) (dec 175) (dec 2250)
              {| scope1_bd := []; scope3_bd := [] |})
    as [[ret rep]|e] eqn:E; [|vm_compute in E; discriminate E].
  exists ret, rep. split; [reflexivity|].
  destruct (C10_intensity_uses_constant_100 _ _ _ _ _ _ _ E) as (_ & Hi & Hn).
  split.
  - rewrite Hi. qc_compute.
  - apply Hn. qc_compute.
Defined.

(** ** The reduction pathway *)

Lemma pathway_step_ok (baseline : Qc) (h : nat) :
  baseline <> 0 -> pathway_step baseline h = Ok (expected_target baseline h).
Proof.
  intros H. unfold pathway_step. now rewrite div_ok by exact H.
Qed.

Lemma calculate_reduction_pathway_ok (baseline : Qc) :
  baseline <> 0 ->
  exists rep,
    calculate_reduction_pathway baseline =
      Ok ((baseline * dec 0.5, baseline * dec 0.1), rep) /\
    targets rep = map (expected_target baseline) years.
Proof.
  intros H. unfold calculate_reduction_pathway.
  rewrite (for_each_ok _ (expected_target baseline))
    by (intros h _; now apply pathway_step_ok).
  eexists. split; reflexivity.
Qed.

Lemma calculate_reduction_pathway_zero :
  calculate_reduction_pathway 0 = Raise ZeroDivisionError.
Proof. reflexivity. Qed.

Lemma Qc_neg_nonzero (x : Qc) : x < 0 -> x <> 0.
Proof. intros H E. rewrite E in H. exact (Qclt_not_eq _ _ H eq_refl). Qed.

Lemma Qc_pos_nonzero (x : Qc) : 0 < x -> x <> 0.
Proof. intros H E. rewrite E in H. exact (Qclt_not_eq _ _ H eq_refl). Qed.

(** C4 (as amended): the pathway has no baseline check.  For a baseline of
    zero it raises a division error at the first horizon; for every
    negative baseline it computes the targets and returns half and a tenth
    of the baseline, as it does for a positive one. *)
Theorem C4_no_zero_baseline_error (baseline : Qc) :
  baseline <= 0 ->
  (baseline = 0 /\
   calculate_reduction_pathway baseline = Raise ZeroDivisionError) \/
  (baseline < 0 /\
   exists rep,
     calculate_reduction_pathway baseline =
       Ok ((baseline * dec 0.5, baseline * dec 0.1), rep) /\
     targets rep = map (expected_target baseline) years).
Proof.
  intros H. destruct (Qcle_lt_or_eq _ _ H) as [Hlt | ->].
  - right. split; [exact Hlt|].
    apply calculate_reduction_pathway_ok. now apply Qc_neg_nonzero.
  - left. split; [reflexivity | apply calculate_reduction_pathway_zero].
Qed.

Lemma C4_no_zero_baseline_error_witness :
  dec (-1000) <= 0 /\
  ((dec (-1000) = 0 /\
    calculate_reduction_pathway (dec (-1000)) = Raise ZeroDivisionError) \/
   (dec (-1000) < 0 /\
    exists rep,
      calculate_reduction_pathway (dec (-1000)) =
        Ok ((dec (-1000) * dec 0.5, dec (-1000) * dec 0.1), rep) /\
      targets rep = map (expected_target (dec (-1000))) years)).
Proof.
  assert (H : dec (-1000) <= 0) by qc_compute.
  split; [exact H|]. exact (C4_no_zero_baseline_error (dec (-1000)) H).
Defined.

(** C4 fails as stated: for the baseline -1000 the pathway raises nothing;
    it returns the targets -500 and -100 and prints a year-1 target of -958. *)
Lemma C4_counterexample :
  dec (-1000) <= 0 /\
  exists rep,
    calculate_reduction_pathway (dec (-1000)) =
      Ok ((dec (-500), dec (-100)), rep) /\
    option_map target (hd_error (targets rep)) = Some (dec (-958)).
Proof.
  split; [qc_compute|].
  destruct (calculate_reduction_pathway_ok (dec (-1000))) as (rep & E & Ht);
    [qc_compute|].
  exists rep. split.
  - rewrite E. f_equal. f_equal. f_equal; qc_compute.
  - rewrite Ht. simpl. f_equal. qc_compute.
Qed.

(** C7 (as amended): for every baseline > 0 and each horizon h of 1, 3, 5
    and 10 years, the target is baseline * (1 - 0.042)^h, the reduction is
    baseline - target and the reduction percentage is
    (reduction / baseline) * 100; for the baseline 1000 the year-1 target is
    958.0 and the year-10 target is 651.1 to one decimal place. *)
Theorem C7_pathway_targets (baseline : Qc) :
  0 < baseline ->
  exists ret rep,
    calculate_reduction_pathway baseline = Ok (ret, rep) /\
    map year (targets rep) = [1; 3; 5; 10]%nat /\
    (forall t, In t (targets rep) ->
       target t = baseline * (1 - dec 0.042) ^ year t /\
       reduction t = baseline - target t /\
       reduction_pct t = reduction t / baseline * dec 100) /\
    (baseline = dec 1000 ->
     forall t, In t (targets rep) ->
       (year t = 1%nat -> target t = dec 958.0) /\
       (year t = 10%nat -> approx1 (target t) (dec 651.1))).
Proof.
  intros H.
  destruct (calculate_reduction_pathway_ok baseline) as (rep & E & Ht);
    [now apply Qc_pos_nonzero|].
  exists (baseline * dec 0.5, baseline * dec 0.1), rep.
  split; [exact E|]. rewrite Ht.
  split; [reflexivity|]. split.
  - intros t Hin. apply in_map_iff in Hin. destruct Hin as (h & <- & _).
    repeat split.
  - intros -> t Hin. apply in_map_iff in Hin. destruct Hin as (h & <- & Hh).
    cbn [year target expected_target]. split; intros ->.
    + qc_compute.
    + split; qc_compute.
Qed.

Lemma C7_pathway_targets_witness :
  0 < dec 1000 /\
  exists ret rep,
    calculate_reduction_pathway (dec 1000) = Ok (ret, rep) /\
    map year (targets rep) = [1; 3; 5; 10]%nat /\
    map target (targets rep) =
      [dec 958; dec 879.217912; dec 806.914547788768;
       dec 1000 * (1 - dec 0.042) ^ 10].
Proof.
  assert (H : 0 < dec 1000) by qc_compute.
  split; [exact H|].
  destruct (C7_pathway_targets (dec 1000) H) as (ret & rep & E & Hy & Ht & _).
  exists ret, rep. split; [exact E|]. split; [exact Hy|].
  destruct (targets rep) as [|t1 [|t3 [|t5 [|t10 [|]]]]]; try discriminate Hy.
  injection Hy as Hy1 Hy3 Hy5 Hy10.
  cbn [map].
  rewrite (proj1 (Ht t1 (or_introl eq_refl))), Hy1.
  rewrite (proj1 (Ht t3 (or_intror (or_introl eq_refl)))), Hy3.
  rewrite (proj1 (Ht t5 (or_intror (or_intror (or_introl eq_refl))))), Hy5.
  rewrite (proj1 (Ht t10 (or_intror (or_intror (or_intror (or_introl eq_refl)))))),
    Hy10.
  repeat f_equal; qc_compute.
Defined.

(** C7 fails as stated: for the baseline 1000 the year-10 target is more
    than two tonnes below 653.4, and the year-1 reduction percentage is
    4.2, a hundred times reduction / baseline. *)
Lemma C7_counterexample :
  exists ret rep t1 t3 t5 t10,
    calculate_reduction_pathway (dec 1000) = Ok (ret, rep) /\
    targets rep = [t1; t3; t5; t10] /\
    year t10 = 10%nat /\
    target t10 + dec 2 < dec 653.4 /\
    ~ approx1 (target t10) (dec 653.4) /\
    year t1 = 1%nat /\
    reduction_pct t1 = dec 4.2 /\
    reduction t1 / dec 1000 = dec 0.042.
Proof.
  destruct (calculate_reduction_pathway_ok (dec 1000)) as (rep & E & Ht);
    [qc_compute|].
  do 6 eexists. split; [exact E|]. split; [exact Ht|].
  cbn [year target reduction reduction_pct expected_target].
  split; [reflexivity|]. split; [qc_compute|]. split.
  - intros [Hlo _]. revert Hlo. apply Qclt_not_le. qc_compute.
  - split; [reflexivity|]. split; qc_compute.
Qed.

(** ** Costs and benefits *)

(** C5 (as amended): for every capital initiative of the catalog and every
    carbon price, the total annual value is the annual energy savings plus
    the emission-reduction tonnage times the carbon price, and the reported
    payback is the catalog's fixed figure: it does not depend on the carbon
    price, it is investment / annual energy savings to one decimal place,
    and no division is involved in reporting it.  The run uses the carbon
    price 50. *)
Theorem C5_payback_is_catalog_figure (carbon_price total_emissions : Qc)
    (s : strategy) :
  In s strategies ->
  carbon_value (strategy_report carbon_price s)
    = emission_reduction s * carbon_price /\
  total_value (strategy_report carbon_price s)
    = annual_savings s + emission_reduction s * carbon_price /\
  payback_period (strategy_report carbon_price s) = payback_years s /\
  approx1 (payback_years s) (cost s / annual_savings s) /\
  In (strategy_report (dec 50) s) (lines (analyze_costs_and_benefits total_emissions)).
Proof.
  intros Hin. repeat split; try reflexivity.
  - simpl in Hin.
    destruct Hin as [<- | [<- | [<- | [<- | []]]]]; vm_compute; discriminate.
  - simpl in Hin.
    destruct Hin as [<- | [<- | [<- | [<- | []]]]]; vm_compute; discriminate.
  - unfold analyze_costs_and_benefits. cbn [lines]. now apply in_map.
Qed.

Lemma C5_payback_is_catalog_figure_witness :
  In {| name := "Solar Installation"; cost := dec 500000;
        annual_savings := dec 75000; emission_reduction := dec 200;
        payback_years := dec 6.7 |} strategies /\
  total_value
    (strategy_report (dec 80)
       {| name := "Solar Installation"; cost := dec 500000;
          annual_savings := dec 75000; emission_reduction := dec 200;
          payback_years := dec 6.7 |})
  = dec 75000 + dec 200 * dec 80 /\
  payback_period
    (strategy_report (dec 80)
       {| name := "Solar Installation"; cost := dec 500000;
          annual_savings := dec 75000; emission_reduction := dec 200;
          payback_years := dec 6.7 |})
  = dec 6.7.
Proof.
  assert (H : In {| name := "Solar Installation"; cost := dec 500000;
                    annual_savings := dec 75000; emission_reduction := dec 200;
                    payback_years := dec 6.7 |} strategies).
  { right. left. reflexivity. }
  split; [exact H|].
  destruct (C5_payback_is_catalog_figure (dec 80) (dec 3221) _ H)
    as (_ & Hv & Hp & _).
  split; [exact Hv | exact Hp].
Defined.

(** C5 fails as stated: at the carbon price 50, LED Lighting has a total
    annual value of 17500 and an investment of 50000, whose quotient is
    20/7, but the payback reported is 3.3. *)
Lemma C5_counterexample :
  exists l,
    hd_error (lines (analyze_costs_and_benefits (dec 3221))) = Some l /\
    line_name l = "LED Lighting"%string /\
    investment l = dec 50000 /\
    total_value l = dec 17500 /\
    div (investment l) (total_value l) = Ok (dec (20 # 7)) /\
    payback_period l = dec 3.3 /\
    dec 3.3 <> dec (20 # 7).
Proof.
  eexists. split; [reflexivity|].
  cbn [line_name investment total_value payback_period strategy_report
       name cost annual_savings emission_reduction payback_years].
  split; [reflexivity|]. split; [reflexivity|]. split; [qc_compute|].
  split; [|split; [reflexivity | qc_compute]].
  rewrite div_ok by qc_compute. f_equal. qc_compute.
Qed.

(** ** The scope calculators *)

Lemma call_emission_api_outcome (svc : service) (endpoint : string)
    (p : payload) (token : string) :
  outcome (call_emission_api svc endpoint p token) = post_emission svc endpoint p token.
Proof. reflexivity. Qed.


(** What every normal return of the Scope 3 calculator contains. *)
Lemma calculate_scope3_outcome (svc : service) (token : string)
    (cd : company_data_t) (total : Qc) (bd : dict) :
  outcome (calculate_scope3_emissions svc token cd) = Ok (total, bd) ->
  dict_get bd "fuel_energy_related" = Some 0 /\
  dict_get bd "waste" = Some (get (employee_count cd) (dec 100) * dec 0.2) /\
  dict_get bd "purchased_goods"
    = Some (get (annual_procurement_spend cd) (dec 5000000) * dec 0.00035) /\
  exists business_travel,
    dict_get bd "business_travel" = Some business_travel /\
    forall r,
      post_emission svc "business_travel"
        (BusinessTravelPayload (get (annual_air_miles cd) (dec 500000))) token
      = Ok r ->
      business_travel =
        if (status_code r =? 200)%Z
        then get (co2e r) 0
        else get (annual_air_miles cd) (dec 500000) * dec 0.00015.
Proof.
  unfold calculate_scope3_emissions. cbv zeta.
  intros H.
  apply outcome_bind_inv in H. destruct H as (r & Hr & H).
  apply outcome_bind_inv in H. destruct H as (bt & Hbt & H).
  rewrite call_emission_api_outcome in Hr.
  assert (Hbt' : forall r',
            post_emission svc "business_travel"
              (BusinessTravelPayload (get (annual_air_miles cd) (dec 500000))) token
            = Ok r' ->
            bt = if (status_code r' =? 200)%Z
                 then get (co2e r') 0
                 else get (annual_air_miles cd) (dec 500000) * dec 0.00015).
  { intros r' Hr'. rewrite Hr in Hr'. apply Ok_inj in Hr'. subst r'.
    destruct (status_code r =? 200)%Z.
    - rewrite outcome_lift in Hbt. unfold json_co2e in Hbt.
      destruct (co2e r); [now apply Ok_inj in Hbt | discriminate Hbt].
    - now apply Ok_inj in Hbt. }
  clear Hbt Hr.
  destruct (get (sells_energy_using_products cd) false),
           (get (sells_physical_products cd) false);
    apply Ok_inj in H; injection H as _ <-;
    (split; [dict_lookup; f_equal; qc_compute|]);
    (split; [dict_lookup|]);
    (split; [dict_lookup|]);
    exists bt; (split; [dict_lookup | exact Hbt']).
Qed.



(** What a completed run went through. *)
Lemma run_inv (svc : service) (cd : company_data_t) (r : run_report) :
  outcome (run svc cd) = Ok (Some r) ->
  exists token,
    get_auth_token svc = Ok (Some token) /\
    outcome (calculate_scope1_emissions svc token cd) = Ok (run_scope1 r) /\
    outcome (calculate_scope2_emissions svc token cd) = Ok (run_scope2 r) /\
    outcome (calculate_scope3_emissions svc token cd) = Ok (run_scope3 r).
Proof.
  unfold run. intros H.
  apply outcome_bind_inv in H. destruct H as (tok & Ht & H).
  rewrite outcome_lift in Ht.
  destruct tok as [token|]; [|discriminate H].
  assert (H' : outcome
                 ('(scope1, scope1_breakdown) <-
                    calculate_scope1_emissions svc token cd ;;
                  '(scope2_location, scope2_market) <-
                    calculate_scope2_emissions svc token cd ;;
                  '(scope3, scope3_breakdown) <-
                    calculate_scope3_emissions svc token cd ;;
                  let breakdowns := {| scope1_bd := scope1_breakdown;
                                       scope3_bd := scope3_breakdown |} in
                  '((total_location, total_market), footprint) <-
                    lift (analyze_complete_footprint scope1 scope2_location
                            scope2_market scope3 breakdowns) ;;
                  '((target_2030, target_2050), pathway) <-
                    lift (calculate_reduction_pathway total_location) ;;
                  roadmap <- lift (create_reduction_roadmap scope1 scope2_location
                                     scope3 breakdowns) ;;
                  let costs := analyze_costs_and_benefits total_location in
                  employee_count <-
                    match employee_count cd with
                    | Some n => ret n
                    | None => throw (KeyError "employee_count")
                    end ;;
                  per_employee <- lift (div total_location employee_count) ;;
                  q <- lift (div scope3 total_location) ;;
                  let scope3_share := q * dec 100 in
                  q <- lift (div (scope2_location - scope2_market) scope2_location) ;;
                  let renewable_effect := q * dec 100 in
                  ret (Some {| run_scope1 := (scope1, scope1_breakdown);
                               run_scope2 := (scope2_location, scope2_market);
                               run_scope3 := (scope3, scope3_breakdown);
                               run_footprint := footprint;
                               run_pathway := pathway;
                               run_roadmap := roadmap;
                               run_costs := costs;
                               per_employee := per_employee;
                               scope3_share := scope3_share;
                               renewable_effect := renewable_effect |}))
               = Ok (Some r)).
  { destruct token as [|c token]; [discriminate H | exact H]. }
  clear H. exists token. split; [exact Ht|].
  apply outcome_bind_inv in H'. destruct H' as ([s1 b1] & H1 & H).
  apply outcome_bind_inv in H. destruct H as ([s2l s2m] & H2 & H).
  apply outcome_bind_inv in H. destruct H as ([s3 b3] & H3 & H).
  cbv zeta in H.
  apply outcome_bind_inv in H. destruct H as ([[tl tm] fp] & _ & H).
  apply outcome_bind_inv in H. destruct H as ([[t30 t50] pw] & _ & H).
  apply outcome_bind_inv in H. destruct H as (rm & _ & H).
  apply outcome_bind_inv in H. destruct H as (n & _ & H).
  apply outcome_bind_inv in H. destruct H as (pe & _ & H).
  apply outcome_bind_inv in H. destruct H as (q1 & _ & H).
  apply outcome_bind_inv in H. destruct H as (q2 & _ & H).
  apply Ok_inj in H. injection H as <-.
  cbn [run_scope1 run_scope2 run_scope3]. now repeat split.
Qed.

Lemma Qcmult_nonneg (a b : Qc) : 0 <= a -> 0 <= b -> 0 <= a * b.
Proof.
  intros Ha Hb. replace 0 with (0 * b) by ring.
  now apply Qcmult_le_compat_r.
Qed.

(** C1 does not hold of the code.  In the run of [main] against a service
    that reports 100 tonnes of stationary combustion, the Scope 1 breakdown
    holds that amount, yet the Scope 3 entry [fuel_energy_related] is 0 and
    not 20, a fifth of it: the calculator looks the stationary amount up in
    its own breakdown, where it never is. *)
Theorem C1_fuel_energy_ignores_scope1 :
  exists r,
    outcome (main svc_partial) = Ok (Some r) /\
    dict_get (snd (run_scope1 r)) "stationary_combustion" = Some (dec 100) /\
    0 < dec 100 /\
    dict_get (snd (run_scope3 r)) "fuel_energy_related" = Some 0 /\
    dec 100 * dec 0.2 = dec 20.
Proof.
  destruct (outcome (main svc_partial)) as [[r|]|e] eqn:E;
    [ | vm_compute in E; discriminate E | vm_compute in E; discriminate E ].
  exists r. split; [reflexivity|].
  destruct (run_inv _ _ _ E) as (token & Ht & H1 & _ & H3).
  apply Ok_inj in Ht. injection Ht as <-.
  split.
  - change (outcome (calculate_scope1_emissions svc_partial "token"
                       example_company_data))
      with (Ok (0 + dec 100, [("stationary_combustion"%string, dec 100)]) :
              result (Qc * dict)) in H1.
    apply Ok_inj in H1. rewrite <- H1. reflexivity.
  - split; [qc_compute|]. split; [|qc_compute].
    destruct (run_scope3 r) as [total bd].
    apply calculate_scope3_outcome in H3. tauto.
Qed.

(** Whatever the service and the profile, a Scope 3 breakdown has a
    [fuel_energy_related] entry of 0. *)
Lemma fuel_energy_related_always_zero (svc : service) (token : string)
    (cd : company_data_t) (total : Qc) (bd : dict) :
  outcome (calculate_scope3_emissions svc token cd) = Ok (total, bd) ->
  dict_get bd "fuel_energy_related" = Some 0.
Proof. intros H. apply calculate_scope3_outcome in H. tauto. Qed.




(** C9 (as amended): for every consumption and every renewable share, the
    market-based request splits the consumption into a grid portion
    consumption * (1 - share/100) and a renewable portion
    consumption * (share/100) whose emission factor is 0.  When the service
    applies the same non-negative factor per kWh under both methods, the
    consumption is non-negative and the share lies in [0,100], the
    market-based amount is at most the location-based one for a positive
    share; for a share of 0 the two are equal. *)
Theorem C9_market_le_location (svc : service) (token : string)
    (cd : company_data_t) (factor : Qc) :
  let kwh := get (electricity_consumption cd) (dec 500000) in
  let share := get (renewable_energy_percent cd) (dec 30) in
  (forall consumption l,
      post_emission svc "location_based" (LocationPayload consumption l) token
      = http 200 (Some (factor * consumption))) ->
  (forall total grid rec rec_factor,
      post_emission svc "market_based"
        (MarketPayload total grid rec rec_factor) token
      = http 200 (Some (factor * grid + rec_factor * rec))) ->
  calls (calculate_scope2_emissions svc token cd) =
    [("location_based"%string,
      LocationPayload kwh (get (location cd) default_location));
     ("market_based"%string,
      MarketPayload kwh (kwh * (1 - share / dec 100))
                        (kwh * (share / dec 100)) 0)] /\
  exists location_based market_based,
    outcome (calculate_scope2_emissions svc token cd)
      = Ok (location_based, market_based) /\
    location_based = factor * kwh /\
    market_based = factor * (kwh * (1 - share / dec 100))
                   + 0 * (kwh * (share / dec 100)) /\
    (0 <= factor -> 0 <= kwh -> 0 <= share -> share <= dec 100 ->
     0 < share -> market_based <= location_based) /\
    (share = 0 -> market_based = location_based).
Proof.
  intros kwh share Hloc Hmkt.
  unfold calculate_scope2_emissions, call_emission_api, lift, ret, bind, json_co2e.
  cbv zeta. fold kwh share.
  rewrite Hloc, Hmkt. unfold http.
  cbn [status_code co2e Z.eqb Pos.eqb app calls outcome fst snd].
  split; [reflexivity|].
  do 2 eexists. split; [reflexivity|]. split; [reflexivity|].
  split; [reflexivity|]. split.
  - intros Hf Hk Hs0 Hs100 _.
    assert (H100 : dec 100 <> 0) by qc_compute.
    apply Qcle_minus_iff.
    replace (factor * kwh
             + - (factor * (kwh * (1 - share / dec 100))
                  + 0 * (kwh * (share / dec 100))))
      with (factor * kwh * (share * / dec 100)) by (field; exact H100).
    apply Qcmult_nonneg; [now apply Qcmult_nonneg|].
    apply Qcmult_nonneg; [exact Hs0 | qc_compute].
  - intros ->. field. qc_compute.
Qed.

Lemma C9_market_le_location_witness :
  calls (calculate_scope2_emissions (svc_grid (dec 0.0004)) "token"
           office_company_data) =
    [("location_based"%string, LocationPayload (dec 120000) default_location);
     ("market_based"%string,
      MarketPayload (dec 120000) (dec 120000 * (1 - dec 40 / dec 100))
                    (dec 120000 * (dec 40 / dec 100)) 0)] /\
  exists location_based market_based,
    outcome (calculate_scope2_emissions (svc_grid (dec 0.0004)) "token"
               office_company_data)
      = Ok (location_based, market_based) /\
    location_based = dec 48 /\
    market_based = dec 28.8 /\
    market_based <= location_based.
Proof.
  destruct (C9_market_le_location (svc_grid (dec 0.0004)) "token"
              office_company_data (dec 0.0004))
    as (Hc & l & m & E & Hl & Hm & Hle & _);
    [ reflexivity | reflexivity | ].
  split; [exact Hc|].
  exists l, m. split; [exact E|].
  split; [rewrite Hl; qc_compute|].
  split; [rewrite Hm; qc_compute|].
  apply Hle; qc_compute.
Defined.

(** C9 fails as stated: for a consumption of -100 kWh, a renewable share of
    30 and the factor 1 under both methods, the location-based amount is
    -100 and the market-based amount is -70, which is larger. *)
Lemma C9_counterexample :
  0 <= 1 /\ 0 < dec 30 /\ dec 30 <= dec 100 /\
  exists location_based market_based,
    outcome (calculate_scope2_emissions (svc_grid 1) "token"
               negative_consumption_data)
      = Ok (location_based, market_based) /\
    location_based = dec (-100) /\
    market_based = dec (-70) /\
    ~ market_based <= location_based.
Proof.
  split; [qc_compute|]. split; [qc_compute|]. split; [qc_compute|].
  do 2 eexists. split; [reflexivity|].
  split; [qc_compute|]. split; [qc_compute|].
  apply Qclt_not_le. qc_compute.
Qed.

(** * Further properties *)

(** ** Authentication and failing requests *)

(** X1: when the authentication endpoint answers with a status other than
    200, or grants an empty token, the run stops at once: it returns
    nothing and no emission request is made. *)
Theorem run_without_token (svc : service) (cd : company_data_t)
    (a : auth_response) :
  post_auth svc = Ok a ->
  auth_status_code a <> 200%Z \/ access_token a = Some ""%string ->
  run svc cd = ([], Ok None).
Proof.
  intros Ha Hwhy. unfold run, get_auth_token. rewrite Ha. cbn [rbind].
  destruct (auth_status_code a =? 200)%Z eqn:S.
  - destruct Hwhy as [Hs | Ht].
    + apply Z.eqb_eq in S. contradiction.
    + rewrite Ht. reflexivity.
  - reflexivity.
Qed.

Lemma run_without_token_witness :
  post_auth svc_denied = Ok {| auth_status_code := 401; access_token := None |} /\
  run svc_denied example_company_data = ([], Ok None).
Proof.
  split; [reflexivity|].
  apply (run_without_token svc_denied example_company_data
           {| auth_status_code := 401; access_token := None |});
    [reflexivity | left; discriminate].
Defined.

Lemma calculate_scope1_first_failure (svc : service) (token : string)
    (cd : company_data_t) (e : exn) :
  request_failure
    (post_emission svc "stationary"
       (StationaryPayload (get (heating_fuel cd) "natural_gas"%string)
                          (get (heating_fuel_amount cd) (dec 50000))
                          (get (location cd) default_location)) token) = Some e ->
  calculate_scope1_emissions svc token cd =
    ([("stationary"%string,
       StationaryPayload (get (heating_fuel cd) "natural_gas"%string)
                         (get (heating_fuel_amount cd) (dec 50000))
                         (get (location cd) default_location))], Raise e).
Proof.
  unfold request_failure, calculate_scope1_emissions, call_emission_api,
    json_co2e, lift, ret, bind.
  cbv zeta.
  destruct (post_emission svc "stationary" _ token) as [r|e'].
  - destruct (status_code r =? 200)%Z; [|discriminate].
    destruct (co2e r); [discriminate|].
    intros H. injection H as <-. reflexivity.
  - intros H. injection H as <-. reflexivity.
Qed.

(** X2: a failing request is fatal.  When the first request, for stationary
    combustion, raises or is a 200 without [emissions.CO2e], the Scope 1
    calculator and the whole run raise that exception after this single
    request: there is no fallback and no later category is attempted. *)
Theorem first_failure_aborts_run (svc : service) (cd : company_data_t)
    (token : string) (e : exn) :
  get_auth_token svc = Ok (Some token) ->
  token <> ""%string ->
  request_failure
    (post_emission svc "stationary"
       (StationaryPayload (get (heating_fuel cd) "natural_gas"%string)
                          (get (heating_fuel_amount cd) (dec 50000))
                          (get (location cd) default_location)) token) = Some e ->
  run svc cd =
    ([("stationary"%string,
       StationaryPayload (get (heating_fuel cd) "natural_gas"%string)
                         (get (heating_fuel_amount cd) (dec 50000))
                         (get (location cd) default_location))], Raise e).
Proof.
  intros Ht Hne Hf. unfold run. rewrite Ht.
  destruct token as [|c token]; [contradiction|].
  unfold lift. unfold bind at 1. cbv beta iota.
  rewrite (calculate_scope1_first_failure _ _ _ _ Hf).
  reflexivity.
Qed.

Lemma first_failure_aborts_run_witness :
  run svc_offline example_company_data =
    ([("stationary"%string,
       StationaryPayload "natural_gas" (dec 50000)
                         {| country := "USA"; state := "California" |})],
     Raise ConnectionError).
Proof.
  apply (first_failure_aborts_run svc_offline example_company_data "token");
    [reflexivity | discriminate | reflexivity].
Defined.

(** ** Scope 2 *)

(** X3: when both electricity requests are answered, Scope 2 always returns
    a pair of numbers: for each method the service's amount on a 200 and
    the initial 0 on any other status. *)
Theorem scope2_defaults_to_zero (svc : service) (token : string)
    (cd : company_data_t) (r1 r2 : response) :
  let kwh := get (electricity_consumption cd) (dec 500000) in
  let share := get (renewable_energy_percent cd) (dec 30) in
  answered svc token "location_based"
    (LocationPayload kwh (get (location cd) default_location)) r1 ->
  answered svc token "market_based"
    (MarketPayload kwh (kwh * (1 - share / dec 100))
                       (kwh * (share / dec 100)) 0) r2 ->
  outcome (calculate_scope2_emissions svc token cd)
    = Ok (amount_or_zero r1, amount_or_zero r2) /\
  (status_code r1 <> 200%Z -> amount_or_zero r1 = 0) /\
  (status_code r2 <> 200%Z -> amount_or_zero r2 = 0).
Proof.
  intros kwh share [E1 W1] [E2 W2].
  unfold calculate_scope2_emissions, call_emission_api, json_co2e, lift, ret,
    bind, amount_or_zero.
  cbv zeta. fold kwh share. rewrite E1. cbv beta iota.
  split.
  - destruct (status_code r1 =? 200)%Z eqn:S1;
      [apply Z.eqb_eq in S1; specialize (W1 S1); destruct (co2e r1) as [v1|];
       [|contradiction] |];
      cbv beta iota; rewrite E2; cbv beta iota;
      (destruct (status_code r2 =? 200)%Z eqn:S2;
       [apply Z.eqb_eq in S2; specialize (W2 S2); destruct (co2e r2) as [v2|];
        [|contradiction] |]);
      reflexivity.
  - split; intros Hs; apply Z.eqb_neq in Hs; now rewrite Hs.
Qed.

Lemma scope2_defaults_to_zero_witness :
  outcome (calculate_scope2_emissions svc_unavailable "token" example_company_data)
    = Ok (0, 0).
Proof.
  destruct (scope2_defaults_to_zero svc_unavailable "token" example_company_data
              {| status_code := 503; co2e := None |}
              {| status_code := 503; co2e := None |}) as (E & _ & _);
    [ split; [reflexivity | discriminate]
    | split; [reflexivity | discriminate]
    | exact E ].
Defined.

(** X4: whenever a market-based request is made, whatever the service, it
    states the profile's consumption as the total, the consumption times
    (1 - share/100) as the grid amount and the consumption times share/100
    as the renewable amount, with emission factor 0, where the share is the
    profile's as it stands, inside [0,100] or not. *)
Theorem market_request_sources (svc : service) (token : string)
    (cd : company_data_t) (total grid rec rec_factor : Qc) :
  let kwh := get (electricity_consumption cd) (dec 500000) in
  let share := get (renewable_energy_percent cd) (dec 30) in
  In ("market_based"%string, MarketPayload total grid rec rec_factor)
     (calls (calculate_scope2_emissions svc token cd)) ->
  total = kwh /\
  grid = kwh * (1 - share / dec 100) /\
  rec = kwh * (share / dec 100) /\
  rec_factor = 0.
Proof.
  intros kwh share.
  unfold calculate_scope2_emissions, call_emission_api, json_co2e, lift, ret, bind.
  cbv zeta. fold kwh share.
  assert (Hin : forall tail,
             In ("market_based"%string, MarketPayload total grid rec rec_factor)
                (("location_based"%string,
                  LocationPayload kwh (get (location cd) default_location))
                 :: tail) ->
             (tail = [] \/
              tail = [("market_based"%string,
                       MarketPayload kwh (kwh * (1 - share / dec 100))
                                     (kwh * (share / dec 100)) 0)]) ->
             total = kwh /\ grid = kwh * (1 - share / dec 100) /\
             rec = kwh * (share / dec 100) /\ rec_factor = 0).
  { intros tail [H | H] Ht; [discriminate H|].
    destruct Ht as [-> | ->]; [contradiction|].
    destruct H as [H | []].
    assert (E1 : kwh = total) by congruence.
    assert (E2 : kwh * (1 - share / dec 100) = grid) by congruence.
    assert (E3 : kwh * (share / dec 100) = rec) by congruence.
    assert (E4 : 0 = rec_factor) by congruence.
    subst total grid rec rec_factor. now repeat split. }
  destruct (post_emission svc "location_based" _ token) as [r1|e1];
    cbv beta iota; [|intros H; apply (Hin [] H); now left].
  destruct (status_code r1 =? 200)%Z; [destruct (co2e r1)|];
    cbv beta iota;
    try (intros H; apply (Hin [] H); now left);
    (destruct (post_emission svc "market_based" _ token) as [r2|e2];
     cbv beta iota;
     [ destruct (status_code r2 =? 200)%Z; [destruct (co2e r2)|]; cbv beta iota
     | ]);
    cbn [calls fst app];
    intros H; apply (Hin _ H); right; reflexivity.
Qed.

Lemma market_request_sources_witness :
  In ("market_based"%string,
      MarketPayload (dec 500000) (dec 500000 * (1 - dec 150 / dec 100))
                    (dec 500000 * (dec 150 / dec 100)) 0)
     (calls (calculate_scope2_emissions svc_partial "token" invalid_company_data)) /\
  dec 500000 * (1 - dec 150 / dec 100) = dec (-250000).
Proof.
  assert (H : In ("market_based"%string,
                  MarketPayload (dec 500000)
                                (dec 500000 * (1 - dec 150 / dec 100))
                                (dec 500000 * (dec 150 / dec 100)) 0)
                 (calls (calculate_scope2_emissions svc_partial "token"
                           invalid_company_data))).
  { right. left. reflexivity. }
  split; [exact H|].
  destruct (market_request_sources svc_partial "token" invalid_company_data
              _ _ _ _ H) as (_ & Hg & _).
  cbn [get renewable_energy_percent electricity_consumption invalid_company_data
       example_company_data] in Hg.
  qc_compute.
Defined.

(** ** Scope 3 *)

(** X5: Scope 3 makes exactly one request, for business travel with the
    profile's air miles, whatever the service answers and whatever the
    profile holds; every other category is estimated locally. *)
Theorem scope3_single_request (svc : service) (token : string)
    (cd : company_data_t) :
  calls (calculate_scope3_emissions svc token cd) =
    [("business_travel"%string,
      BusinessTravelPayload (get (annual_air_miles cd) (dec 500000)))].
Proof.
  unfold calculate_scope3_emissions, call_emission_api, json_co2e, lift, ret, bind.
  cbv zeta.
  destruct (post_emission svc "business_travel" _ token) as [r|e];
    cbv beta iota; [|reflexivity].
  destruct (status_code r =? 200)%Z; [destruct (co2e r)|]; cbv beta iota;
    try reflexivity;
    destruct (get (sells_energy_using_products cd) false),
             (get (sells_physical_products cd) false);
    reflexivity.
Qed.

(** The shape of a Scope 3 return: the breakdown in insertion order, for
    each setting of the two product flags. *)
Lemma calculate_scope3_shape (svc : service) (token : string)
    (cd : company_data_t) (total : Qc) (bd : dict) :
  outcome (calculate_scope3_emissions svc token cd) = Ok (total, bd) ->
  exists bt optional,
    bd = [("purchased_goods"%string,
           get (annual_procurement_spend cd) (dec 5000000) * dec 0.00035);
          ("capital_goods"%string,
           get (capital_expenditure cd) (dec 1000000) * dec 0.00045);
          ("fuel_energy_related"%string, 0 * dec 0.2);
          ("upstream_transport"%string,
           get (annual_procurement_spend cd) (dec 5000000) * dec 0.00008);
          ("waste"%string, get (employee_count cd) (dec 100) * dec 0.2);
          ("business_travel"%string, bt);
          ("commuting"%string,
           get (employee_count cd) (dec 100) * get (avg_commute_miles cd) (dec 20)
           * dec 220 * dec 0.0004)] ++ optional /\
    optional =
      (if get (sells_energy_using_products cd) false
       then [("use_of_products"%string,
              get (products_sold cd) (dec 10000)
              * get (product_lifetime_kwh cd) (dec 1000) * dec 0.0004)]
       else [])
      ++ (if get (sells_physical_products cd) false
          then [("end_of_life"%string,
                 get (annual_product_weight_tonnes cd) (dec 100) * dec 0.5)]
          else []) /\
    total = sum (values bd).
Proof.
  unfold calculate_scope3_emissions. cbv zeta. intros H.
  apply outcome_bind_inv in H. destruct H as (r & _ & H).
  apply outcome_bind_inv in H. destruct H as (bt & _ & H).
  exists bt.
  destruct (get (sells_energy_using_products cd) false),
           (get (sells_physical_products cd) false);
    apply Ok_inj in H; injection H as <- <-;
    eexists; (split; [reflexivity|]); split; reflexivity.
Qed.

(** X6: in every Scope 3 return the subtotal is the sum of the breakdown's
    amounts, and the breakdown has the seven fixed categories in their
    order of computation, followed by [use_of_products] exactly when the
    profile sells energy-using products and by [end_of_life] exactly when
    it sells physical products. *)
Theorem scope3_subtotal_and_keys (svc : service) (token : string)
    (cd : company_data_t) (total : Qc) (bd : dict) :
  outcome (calculate_scope3_emissions svc token cd) = Ok (total, bd) ->
  total = sum (values bd) /\
  map fst bd =
    ["purchased_goods"%string; "capital_goods"%string;
     "fuel_energy_related"%string; "upstream_transport"%string;
     "waste"%string; "business_travel"%string; "commuting"%string]
    ++ (if get (sells_energy_using_products cd) false
        then ["use_of_products"%string] else [])
    ++ (if get (sells_physical_products cd) false
        then ["end_of_life"%string] else []).
Proof.
  intros H. apply calculate_scope3_shape in H.
  destruct H as (bt & optional & -> & -> & Ht).
  split; [exact Ht|].
  destruct (get (sells_energy_using_products cd) false),
           (get (sells_physical_products cd) false); reflexivity.
Qed.

Lemma scope3_subtotal_and_keys_witness :
  exists total bd,
    outcome (calculate_scope3_emissions svc_unavailable "token"
               example_company_data) = Ok (total, bd) /\
    total = sum (values bd) /\
    total = dec 2871 /\
    List.length bd = 7%nat.
Proof.
  destruct (outcome (calculate_scope3_emissions svc_unavailable "token"
                       example_company_data)) as [[total bd]|e] eqn:E;
    [|vm_compute in E; discriminate E].
  exists total, bd. split; [reflexivity|].
  destruct (scope3_subtotal_and_keys _ _ _ _ _ E) as (Ht & Hk).
  split; [exact Ht|].
  apply Ok_inj in E. injection E as <- <-.
  split; [qc_compute | reflexivity].
Defined.

(** X7: the service decides nothing in Scope 3 but business travel: two
    Scope 3 returns for one profile, from any two services and tokens,
    agree on the amount of every other category. *)
Theorem scope3_estimates_ignore_service (svc svc' : service)
    (token token' : string) (cd : company_data_t) (total total' : Qc)
    (bd bd' : dict) (category : string) :
  outcome (calculate_scope3_emissions svc token cd) = Ok (total, bd) ->
  outcome (calculate_scope3_emissions svc' token' cd) = Ok (total', bd') ->
  category <> "business_travel"%string ->
  dict_get bd category = dict_get bd' category.
Proof.
  intros H H' Hc.
  apply calculate_scope3_shape in H. destruct H as (bt & opt & -> & Ho & _).
  apply calculate_scope3_shape in H'. destruct H' as (bt' & opt' & -> & Ho' & _).
  rewrite <- Ho' in Ho. subst opt'.
  apply String.eqb_neq in Hc.
  cbn [dict_get app].
  repeat match goal with
         | |- context [String.eqb category ?s] =>
             destruct (String.eqb category s) eqn:?; try reflexivity
         end;
    discriminate.
Qed.

Lemma scope3_estimates_ignore_service_witness :
  exists total bd total' bd',
    outcome (calculate_scope3_emissions svc_partial "token" example_company_data)
      = Ok (total, bd) /\
    outcome (calculate_scope3_emissions svc_unavailable "other" example_company_data)
      = Ok (total', bd') /\
    dict_get bd "commuting" = dict_get bd' "commuting".
Proof.
  destruct (outcome (calculate_scope3_emissions svc_partial "token"
                       example_company_data)) as [[total bd]|e] eqn:E;
    [|vm_compute in E; discriminate E].
  destruct (outcome (calculate_scope3_emissions svc_unavailable "other"
                       example_company_data)) as [[total' bd']|e'] eqn:E';
    [|vm_compute in E'; discriminate E'].
  exists total, bd, total', bd'. split; [reflexivity|]. split; [reflexivity|].
  apply (scope3_estimates_ignore_service _ _ _ _ _ _ _ _ _ "commuting" E E').
  discriminate.
Defined.

(** ** The footprint analysis, continued *)

Lemma all_categories_length (scope2_location : Qc) (breakdowns : breakdowns_t) :
  List.length (all_categories scope2_location breakdowns) =
    (List.length (scope1_bd breakdowns) + 1 + List.length (scope3_bd breakdowns))%nat.
Proof.
  unfold all_categories, items. cbv zeta. cbn [app].
  rewrite !length_app, !length_map. reflexivity.
Qed.

Lemma all_categories_in (scope2_location : Qc) (breakdowns : breakdowns_t)
    (a : Qc) :
  a = scope2_location \/
  (exists c, In (c, a) (scope1_bd breakdowns)) \/
  (exists c, In (c, a) (scope3_bd breakdowns)) ->
  exists label, In (label, a) (all_categories scope2_location breakdowns).
Proof.
  unfold all_categories, items. cbv zeta. cbn [app].
  intros [-> | [[c H] | [c H]]].
  - exists "Scope 2 - Electricity"%string.
    apply in_or_app. left. apply in_or_app. right. now left.
  - exists ("Scope 1 - " ++ c)%string.
    apply in_or_app. left. apply in_or_app. left.
    apply in_map_iff. exists (c, a). now split.
  - exists ("Scope 3 - " ++ c)%string.
    apply in_or_app. right.
    apply in_map_iff. exists (c, a). now split.
Qed.

(** X9: every report the analysis returns has at least one hotspot and at
    most five: as many as there are breakdown entries plus one for
    electricity, capped at five.  The first hotspot carries the largest
    amount of all: no breakdown entry and not the electricity amount
    exceeds it. *)
Theorem hotspots_count_and_top (scope1 scope2_location scope2_market
    scope3 : Qc) (breakdowns : breakdowns_t) (ret : Qc * Qc)
    (rep : footprint_report) :
  analyze_complete_footprint scope1 scope2_location scope2_market scope3
                             breakdowns = Ok (ret, rep) ->
  exists top rest,
    hotspots rep = top :: rest /\
    List.length (hotspots rep) =
      Nat.min 5 (List.length (scope1_bd breakdowns) + 1
                 + List.length (scope3_bd breakdowns)) /\
    scope2_location <= snd (fst top) /\
    (forall c a, In (c, a) (scope1_bd breakdowns) -> a <= snd (fst top)) /\
    (forall c a, In (c, a) (scope3_bd breakdowns) -> a <= snd (fst top)).
Proof.
  intros E. apply analyze_complete_footprint_inv in E.
  destruct E as (_ & _ & _ & _ & _ & _ & Hh & _).
  pose proof (list_sort_reverse_perm amount
                (all_categories scope2_location breakdowns)) as Hperm.
  pose proof (list_sort_reverse_sorted amount
                (all_categories scope2_location breakdowns)) as Hsorted.
  pose proof (all_categories_length scope2_location breakdowns) as Hlen.
  fold (sorted_categories scope2_location breakdowns) in Hperm, Hsorted.
  rewrite (Permutation_length Hperm) in Hlen.
  assert (Hmax : forall a,
             a = scope2_location \/
             (exists c, In (c, a) (scope1_bd breakdowns)) \/
             (exists c, In (c, a) (scope3_bd breakdowns)) ->
             exists label,
               In (label, a) (sorted_categories scope2_location breakdowns)).
  { intros a Ha. destruct (all_categories_in _ _ _ Ha) as [label Hl].
    exists label. exact (Permutation_in _ Hperm Hl). }
  destruct (sorted_categories scope2_location breakdowns) as [|x l] eqn:Es.
  - cbn [List.length] in Hlen. rewrite Nat.add_1_r in Hlen.
    discriminate Hlen.
  - assert (Htop : forall a,
               a = scope2_location \/
               (exists c, In (c, a) (scope1_bd breakdowns)) \/
               (exists c, In (c, a) (scope3_bd breakdowns)) ->
               a <= amount x).
    { intros a Ha. destruct (Hmax a Ha) as [label [Hx | Hin]].
      - rewrite Hx. apply Qcle_refl.
      - inversion Hsorted as [|? ? _ Hf]; subst.
        rewrite Forall_forall in Hf. exact (Hf _ Hin). }
    exists (hotspot_line (scope1 + scope2_location + scope3) x).
    eexists. rewrite Hh.
    split; [reflexivity|]. split.
    + rewrite length_map, length_firstn, Hlen. reflexivity.
    + cbn [hotspot_line fst snd]. split; [apply Htop; now left|].
      split; intros c a Hin; apply Htop; right; [left | right]; now exists c.
Qed.

Lemma hotspots_count_and_top_witness :
  exists ret rep top rest,
    analyze_complete_footprint (dec 100) (dec 250) (dec 175) (dec 650)
      {| scope1_bd := [("stationary_combustion"%string, dec 100)];
         scope3_bd := [("waste"%string, dec 250); ("commuting"%string, dec 400)] |}
    = Ok (ret, rep) /\
    hotspots rep = top :: rest /\
    List.length (hotspots rep) = 4%nat /\
    dec 250 <= snd (fst top).
Proof.
  destruct (analyze_complete_footprint (dec 100) (dec 250) (dec 175) (dec 650)
              {| scope1_bd := [("stationary_combustion"%string, dec 100)];
                 scope3_bd := [("waste"%string, dec 250);
                               ("commuting"%string, dec 400)] |})
    as [[ret rep]|e] eqn:E; [|vm_compute in E; discriminate E].
  destruct (hotspots_count_and_top _ _ _ _ _ _ _ E)
    as (top & rest & Hh & Hl & Ht & _).
  exists ret, rep, top, rest. repeat split; assumption.
Defined.

Lemma create_reduction_roadmap_ok (scope1 scope2 scope3 : Qc)
    (breakdowns : breakdowns_t) :
  scope1 + scope2 + scope3 <> 0 ->
  exists rep,
    create_reduction_roadmap scope1 scope2 scope3 breakdowns = Ok rep /\
    potentials rep =
      [scope2 * dec 0.20;
       dict_get_default (scope3_bd breakdowns) "business_travel" 0 * dec 0.30;
       scope2 * dec 0.50;
       dict_get_default (scope1_bd breakdowns) "mobile_combustion" 0 * dec 0.40;
       dict_get_default (scope3_bd breakdowns) "purchased_goods" 0 * dec 0.25;
       dict_get_default (scope1_bd breakdowns) "stationary_combustion" 0 * dec 0.60] /\
    total_potential rep = sum (potentials rep) /\
    achievable_pct rep
      = total_potential rep / (scope1 + scope2 + scope3) * dec 100.
Proof.
  intros H. unfold create_reduction_roadmap. cbv zeta.
  rewrite div_ok by exact H. cbn [rbind].
  eexists. split; [reflexivity|]. cbn [potentials total_potential achievable_pct].
  repeat split.
Qed.

(** X10: once the footprint analysis has reported, the two steps that
    follow it in [main] cannot raise: the reduction pathway for the total
    it returned and the roadmap for the same scope amounts both return. *)
Theorem analysis_guards_pathway_and_roadmap (scope1 scope2_location
    scope2_market scope3 : Qc) (breakdowns : breakdowns_t)
    (out : (Qc * Qc) * footprint_report) :
  analyze_complete_footprint scope1 scope2_location scope2_market scope3
                             breakdowns = Ok out ->
  (exists p, calculate_reduction_pathway (fst (fst out)) = Ok p) /\
  (exists rm,
      create_reduction_roadmap scope1 scope2_location scope3 breakdowns = Ok rm).
Proof.
  intros E. destruct out as [ret footprint].
  apply analyze_complete_footprint_inv in E. destruct E as (H & -> & _).
  cbn [fst]. split.
  - destruct (calculate_reduction_pathway_ok _ H) as (rep & Ep & _). eauto.
  - destruct (create_reduction_roadmap_ok _ _ _ breakdowns H) as (rm & Er & _).
    eauto.
Qed.

Lemma analysis_guards_pathway_and_roadmap_witness :
  exists out,
    analyze_complete_footprint (dec 100) (dec 250) (dec 175) (dec 650)
      {| scope1_bd := []; scope3_bd := [] |} = Ok out /\
    (exists p, calculate_reduction_pathway (fst (fst out)) = Ok p) /\
    (exists rm,
        create_reduction_roadmap (dec 100) (dec 250) (dec 650)
          {| scope1_bd := []; scope3_bd := [] |} = Ok rm).
Proof.
  destruct (analyze_complete_footprint (dec 100) (dec 250) (dec 175) (dec 650)
              {| scope1_bd := []; scope3_bd := [] |}) as [out|e] eqn:E;
    [|vm_compute in E; discriminate E].
  exists out. split; [reflexivity|].
  exact (analysis_guards_pathway_and_roadmap _ _ _ _ _ _ E).
Defined.

(** ** The reduction pathway, continued *)

Lemma Qcpower_pos_strict (q : Qc) (n : nat) : 0 < q -> 0 < q ^ n.
Proof.
  intros Hq. induction n as [|n IH]; cbn [Qcpower]; [qc_compute|].
  replace 0 with (0 * q ^ n) by ring.
  now apply Qcmult_lt_compat_r.
Qed.

Lemma Qcpower_step (q : Qc) (n : nat) : 0 < q -> q < 1 -> q ^ S n < q ^ n.
Proof.
  intros Hq H1. cbn [Qcpower].
  replace (q ^ n) with (1 * q ^ n) at 2 by ring.
  apply Qcmult_lt_compat_r; [now apply Qcpower_pos_strict | exact H1].
Qed.

Lemma Qcpower_decreasing (q : Qc) (n m : nat) :
  0 < q -> q < 1 -> (n < m)%nat -> q ^ m < q ^ n.
Proof.
  intros Hq H1 Hlt. induction Hlt as [|m Hle IH].
  - now apply Qcpower_step.
  - apply Qclt_trans with (q ^ m); [now apply Qcpower_step | exact IH].
Qed.

Lemma Qcmult_lt_compat_l_pos (b x y : Qc) : 0 < b -> x < y -> b * x < b * y.
Proof.
  intros Hb Hxy. rewrite (Qcmult_comm b x), (Qcmult_comm b y).
  now apply Qcmult_lt_compat_r.
Qed.

(** X11: for every baseline > 0 the printed targets lie strictly between 0
    and the baseline, the reduction percentages strictly between 0 and
    100, and a later horizon always has a strictly lower target. *)
Theorem pathway_targets_decrease (baseline : Qc) :
  0 < baseline ->
  exists ret rep,
    calculate_reduction_pathway baseline = Ok (ret, rep) /\
    (forall t, In t (targets rep) ->
       0 < target t /\ target t < baseline /\
       0 < reduction_pct t /\ reduction_pct t < dec 100) /\
    (forall t1 t2, In t1 (targets rep) -> In t2 (targets rep) ->
       (year t1 < year t2)%nat -> target t2 < target t1).
Proof.
  intros Hb.
  assert (Hb0 : baseline <> 0) by now apply Qc_pos_nonzero.
  assert (Hq0 : 0 < 1 - dec 0.042) by qc_compute.
  assert (Hq1 : 1 - dec 0.042 < 1) by qc_compute.
  assert (H100 : 0 < dec 100) by qc_compute.
  destruct (calculate_reduction_pathway_ok baseline Hb0) as (rep & E & Ht).
  do 2 eexists. split; [exact E|]. rewrite Ht. split.
  - intros t Hin. apply in_map_iff in Hin. destruct Hin as (h & <- & Hh).
    cbn [target reduction_pct expected_target].
    assert (Hh0 : (0 < h)%nat).
    { destruct h; [|apply Nat.lt_0_succ].
      exfalso. simpl in Hh. intuition discriminate. }
    pose proof (Qcpower_pos_strict (1 - dec 0.042) h Hq0) as Hp0.
    pose proof (Qcpower_decreasing (1 - dec 0.042) 0 h Hq0 Hq1 Hh0) as Hp1.
    cbn [Qcpower] in Hp1.
    set (p := (1 - dec 0.042) ^ h) in *.
    assert (Hpct : (baseline - baseline * p) / baseline * dec 100
                   = (1 - p) * dec 100) by (field; exact Hb0).
    rewrite Hpct.
    split; [|split; [|split]].
    + replace 0 with (baseline * 0) by ring.
      now apply Qcmult_lt_compat_l_pos.
    + replace baseline with (baseline * 1) at 2 by ring.
      now apply Qcmult_lt_compat_l_pos.
    + replace 0 with (0 * dec 100) by ring.
      apply Qcmult_lt_compat_r; [exact H100|].
      apply Qclt_minus_iff in Hp1. exact Hp1.
    + replace (dec 100) with (1 * dec 100) at 2 by ring.
      apply Qcmult_lt_compat_r; [exact H100|].
      apply Qclt_minus_iff.
      replace (1 + - (1 - p)) with p by ring. exact Hp0.
  - intros t1 t2 H1 H2.
    apply in_map_iff in H1. destruct H1 as (h1 & <- & _).
    apply in_map_iff in H2. destruct H2 as (h2 & <- & _).
    cbn [year target expected_target]. intros Hlt.
    apply Qcmult_lt_compat_l_pos; [exact Hb|].
    now apply Qcpower_decreasing.
Qed.

Lemma pathway_targets_decrease_witness :
  0 < dec 3221 /\
  exists ret rep,
    calculate_reduction_pathway (dec 3221) = Ok (ret, rep) /\
    forall t, In t (targets rep) -> 0 < target t /\ target t < dec 3221.
Proof.
  assert (H : 0 < dec 3221) by qc_compute.
  split; [exact H|].
  destruct (pathway_targets_decrease (dec 3221) H) as (ret & rep & E & Hb & _).
  exists ret, rep. split; [exact E|].
  intros t Hin. destruct (Hb t Hin) as (H0 & H1 & _). now split.
Defined.

Lemma calculate_reduction_pathway_pace (baseline : Qc) :
  baseline <> 0 ->
  exists rep,
    calculate_reduction_pathway baseline =
      Ok ((baseline * dec 0.5, baseline * dec 0.1), rep) /\
    rep_target_2030 rep = baseline * dec 0.5 /\
    rep_target_2050 rep = baseline * dec 0.1 /\
    per_year rep = (baseline - baseline * dec 0.5) / dec 6 /\
    per_month rep = per_year rep / dec 12 /\
    per_week rep = per_year rep / dec 52.
Proof.
  intros H. unfold calculate_reduction_pathway.
  rewrite (for_each_ok _ (expected_target baseline))
    by (intros h _; now apply pathway_step_ok).
  eexists. split; [reflexivity|]. repeat split.
Qed.

(** X12: for every baseline > 0 the milestones are ordered: the returned
    2050 target, a tenth of the baseline, is positive and below the
    returned 2030 target, half the baseline, which is below the baseline.
    The yearly pace is the cut down to the 2030 target divided by 6; the
    monthly pace is a twelfth and the weekly pace a fifty-second of it, so
    that 0 < weekly < monthly < yearly. *)
Theorem pathway_milestones_ordered (baseline : Qc) :
  0 < baseline ->
  exists t2030 t2050 rep,
    calculate_reduction_pathway baseline = Ok ((t2030, t2050), rep) /\
    t2030 = baseline * dec 0.5 /\
    t2050 = baseline * dec 0.1 /\
    (0 < t2050 /\ t2050 < t2030 /\ t2030 < baseline) /\
    per_year rep = (baseline - t2030) / dec 6 /\
    per_month rep = per_year rep / dec 12 /\
    per_week rep = per_year rep / dec 52 /\
    (0 < per_week rep /\ per_week rep < per_month rep /\
     per_month rep < per_year rep).
Proof.
  intros Hb.
  destruct (calculate_reduction_pathway_pace baseline (Qc_pos_nonzero _ Hb))
    as (rep & E & _ & _ & Hy & Hm & Hw).
  do 3 eexists. split; [exact E|].
  split; [reflexivity|]. split; [reflexivity|].
  assert (Hhalf : baseline * dec 0.5 < baseline).
  { replace baseline with (baseline * 1) at 2 by ring.
    apply Qcmult_lt_compat_l_pos; [exact Hb | qc_compute]. }
  assert (Hy0 : 0 < per_year rep).
  { rewrite Hy. unfold Qcdiv.
    replace 0 with (0 * / dec 6) by ring.
    apply Qcmult_lt_compat_r; [qc_compute|].
    apply Qclt_minus_iff in Hhalf. exact Hhalf. }
  split; [|split; [exact Hy|split; [exact Hm|split; [exact Hw|]]]].
  - split; [|split; [|exact Hhalf]].
    + replace 0 with (baseline * 0) by ring.
      apply Qcmult_lt_compat_l_pos; [exact Hb | qc_compute].
    + apply Qcmult_lt_compat_l_pos; [exact Hb | qc_compute].
  - rewrite Hw, Hm. unfold Qcdiv. split; [|split].
    + replace 0 with (per_year rep * 0) by ring.
      apply Qcmult_lt_compat_l_pos; [exact Hy0 | qc_compute].
    + apply Qcmult_lt_compat_l_pos; [exact Hy0 | qc_compute].
    + replace (per_year rep) with (per_year rep * 1) at 2 by ring.
      apply Qcmult_lt_compat_l_pos; [exact Hy0 | qc_compute].
Qed.

Lemma pathway_milestones_ordered_witness :
  0 < dec 1200 /\
  exists t2030 t2050 rep,
    calculate_reduction_pathway (dec 1200) = Ok ((t2030, t2050), rep) /\
    t2050 < t2030 /\ t2030 < dec 1200 /\
    per_month rep < per_year rep.
Proof.
  assert (H : 0 < dec 1200) by qc_compute.
  split; [exact H|].
  destruct (pathway_milestones_ordered (dec 1200) H)
    as (t2030 & t2050 & rep & E & _ & _ & (_ & H1 & H2) & _ & _ & _ & (_ & _ & H3)).
  exists t2030, t2050, rep. repeat split; assumption.
Defined.

(** ** The roadmap *)

(** X13: the roadmap raises a division error exactly when the three scope
    amounts add up to 0.  Otherwise it returns six potentials: 20 and 50
    percent of the Scope 2 amount and 30, 40, 25 and 60 percent of business
    travel, mobile combustion, purchased goods and stationary combustion,
    where a category missing from its breakdown counts as 0 instead of
    raising; the total is their sum taken in that order and the achievable
    percentage is the total over the sum of the scopes, times 100. *)
Theorem roadmap_total_potential (scope1 scope2 scope3 : Qc)
    (breakdowns : breakdowns_t) :
  (scope1 + scope2 + scope3 = 0 /\
   create_reduction_roadmap scope1 scope2 scope3 breakdowns
     = Raise ZeroDivisionError) \/
  (scope1 + scope2 + scope3 <> 0 /\
   exists rep,
     create_reduction_roadmap scope1 scope2 scope3 breakdowns = Ok rep /\
     potentials rep =
       [scope2 * dec 0.20;
        match dict_get (scope3_bd breakdowns) "business_travel" with
        | Some a => a | None => 0 end * dec 0.30;
        scope2 * dec 0.50;
        match dict_get (scope1_bd breakdowns) "mobile_combustion" with
        | Some a => a | None => 0 end * dec 0.40;
        match dict_get (scope3_bd breakdowns) "purchased_goods" with
        | Some a => a | None => 0 end * dec 0.25;
        match dict_get (scope1_bd breakdowns) "stationary_combustion" with
        | Some a => a | None => 0 end * dec 0.60] /\
     total_potential rep = fold_left Qcplus (potentials rep) 0 /\
     achievable_pct rep
       = total_potential rep / (scope1 + scope2 + scope3) * dec 100).
Proof.
  destruct (Qc_eq_dec (scope1 + scope2 + scope3) 0) as [Hz | Hnz].
  - left. split; [exact Hz|].
    unfold create_reduction_roadmap. cbv zeta. rewrite Hz, div_zero. reflexivity.
  - right. split; [exact Hnz|].
    destruct (create_reduction_roadmap_ok scope1 scope2 scope3 breakdowns Hnz)
      as (rep & E & Hp & Ht & Ha).
    exists rep. split; [exact E|]. split; [exact Hp|]. split; [exact Ht | exact Ha].
Qed.

(** ** The run as a whole *)

Lemma div_ok_inv (x y q : Qc) : div x y = Ok q -> y <> 0 /\ q = x / y.
Proof.
  unfold div. destruct (Qc_eq_bool y 0) eqn:E; [discriminate|].
  apply Qc_eq_bool_false_iff in E. intros H. apply Ok_inj in H. now split.
Qed.

(** A completed run, step by step. *)
Lemma run_inv_steps (svc : service) (cd : company_data_t) (r : run_report) :
  outcome (run svc cd) = Ok (Some r) ->
  exists token n ret,
    get_auth_token svc = Ok (Some token) /\
    token <> ""%string /\
    outcome (calculate_scope1_emissions svc token cd) = Ok (run_scope1 r) /\
    outcome (calculate_scope2_emissions svc token cd) = Ok (run_scope2 r) /\
    outcome (calculate_scope3_emissions svc token cd) = Ok (run_scope3 r) /\
    analyze_complete_footprint
      (fst (run_scope1 r)) (fst (run_scope2 r)) (snd (run_scope2 r))
      (fst (run_scope3 r))
      {| scope1_bd := snd (run_scope1 r); scope3_bd := snd (run_scope3 r) |}
      = Ok (ret, run_footprint r) /\
    employee_count cd = Some n /\
    div (fst ret) n = Ok (per_employee r) /\
    (exists q, div (fst (run_scope2 r) - snd (run_scope2 r)) (fst (run_scope2 r))
               = Ok q /\ renewable_effect r = q * dec 100) /\
    calls (run svc cd) =
      calls (calculate_scope1_emissions svc token cd)
      ++ calls (calculate_scope2_emissions svc token cd)
      ++ calls (calculate_scope3_emissions svc token cd).
Proof.
  unfold run. intros H.
  rewrite calls_bind.
  apply outcome_bind_inv in H. destruct H as (tok & Ht & H).
  rewrite Ht. rewrite outcome_lift in Ht.
  destruct tok as [token|]; [|discriminate H].
  destruct token as [|c token]; [discriminate H|].
  set (tk := String c token) in *.
  exists tk.
  rewrite calls_bind.
  apply outcome_bind_inv in H. destruct H as ([s1 b1] & H1 & H). rewrite H1.
  rewrite calls_bind.
  apply outcome_bind_inv in H. destruct H as ([s2l s2m] & H2 & H). rewrite H2.
  rewrite calls_bind.
  apply outcome_bind_inv in H. destruct H as ([s3 b3] & H3 & H). rewrite H3.
  cbv zeta in H |- *.
  rewrite calls_bind.
  apply outcome_bind_inv in H. destruct H as ([[tl tm] fp] & Ha & H). rewrite Ha.
  rewrite calls_bind.
  apply outcome_bind_inv in H. destruct H as ([[t30 t50] pw] & Hp & H). rewrite Hp.
  rewrite calls_bind.
  apply outcome_bind_inv in H. destruct H as (rm & Hr & H). rewrite Hr.
  rewrite calls_bind.
  apply outcome_bind_inv in H. destruct H as (n & Hn & H). rewrite Hn.
  rewrite calls_bind.
  apply outcome_bind_inv in H. destruct H as (pe & Hpe & H). rewrite Hpe.
  rewrite calls_bind.
  apply outcome_bind_inv in H. destruct H as (q1 & Hq1 & H). rewrite Hq1.
  rewrite calls_bind.
  apply outcome_bind_inv in H. destruct H as (q2 & Hq2 & H). rewrite Hq2.
  apply Ok_inj in H. injection H as <-.
  unfold outcome, lift in Ha, Hpe, Hq2. cbn [snd] in Ha, Hpe, Hq2.
  exists n, (tl, tm).
  cbn [run_scope1 run_scope2 run_scope3 run_footprint per_employee
       renewable_effect fst snd].
  split; [exact Ht|]. split; [discriminate|].
  split; [reflexivity|]. split; [reflexivity|]. split; [reflexivity|].
  split; [first [exact Ha | reflexivity]|].
  split.
  { destruct (employee_count cd) as [n'|]; [|discriminate Hn].
    apply Ok_inj in Hn. now subst n'. }
  split; [first [exact Hpe | reflexivity]|].
  split; [exists q2; split; first [exact Hq2 | reflexivity]|].
  destruct (employee_count cd) as [n'|];
    cbn [calls lift ret throw fst app]; now rewrite !app_nil_r.
Qed.

(** X14: a run completes only if the total is not 0, the location-based
    Scope 2 amount is not 0 and the profile has a nonzero employee count.
    In a completed run the total is the sum of the three scope amounts, the
    figure per employee is the total divided by the profile's employee
    count, and the intensity of the footprint report is the total divided
    by 100. *)
Theorem run_completes_only_if (svc : service) (cd : company_data_t)
    (r : run_report) :
  outcome (run svc cd) = Ok (Some r) ->
  rep_total_location (run_footprint r) <> 0 /\
  rep_total_location (run_footprint r)
    = fst (run_scope1 r) + fst (run_scope2 r) + fst (run_scope3 r) /\
  fst (run_scope2 r) <> 0 /\
  (exists n, employee_count cd = Some n /\ n <> 0 /\
             per_employee r = rep_total_location (run_footprint r) / n) /\
  intensity (run_footprint r) = rep_total_location (run_footprint r) / dec 100.
Proof.
  intros H. apply run_inv_steps in H.
  destruct H as (token & n & ret & _ & _ & _ & _ & _ & Ha & Hn & Hpe & Hq & _).
  destruct Hq as (q & Hq & _).
  apply div_ok_inv in Hq. destruct Hq as [Hs2 _].
  apply analyze_complete_footprint_inv in Ha.
  destruct Ha as (Ht & -> & Htot & _ & _ & _ & _ & Hi).
  cbn [fst] in Hpe. apply div_ok_inv in Hpe. destruct Hpe as [Hn0 ->].
  rewrite Htot, Hi.
  split; [exact Ht|]. split; [reflexivity|]. split; [exact Hs2|].
  split; [|reflexivity].
  exists n. now repeat split.
Qed.

Lemma run_completes_only_if_witness :
  exists r,
    outcome (run svc_partial office_company_data) = Ok (Some r) /\
    fst (run_scope2 r) <> 0 /\
    per_employee r = rep_total_location (run_footprint r) / dec 22.
Proof.
  destruct (outcome (run svc_partial office_company_data)) as [[r|]|e] eqn:E;
    [ | vm_compute in E; discriminate E | vm_compute in E; discriminate E ].
  exists r. split; [reflexivity|].
  destruct (run_completes_only_if svc_partial office_company_data r E)
    as (_ & _ & H2 & (n & Hn & _ & Hp) & _).
  split; [exact H2|].
  apply (f_equal (fun o => match o with Some x => x | None => n end)) in Hn.
  cbv beta iota in Hn. cbn [employee_count office_company_data] in Hn.
  rewrite Hp, <- Hn. reflexivity.
Defined.

Lemma calculate_scope1_calls (svc : service) (token : string)
    (cd : company_data_t) (x : Qc * dict) :
  outcome (calculate_scope1_emissions svc token cd) = Ok x ->
  calls (calculate_scope1_emissions svc token cd)
    = [("stationary"%string,
        StationaryPayload (get (heating_fuel cd) "natural_gas"%string)
                          (get (heating_fuel_amount cd) (dec 50000))
                          (get (location cd) default_location));
       ("mobile"%string,
        MobilePayload (get (fleet_fuel cd) (dec 10000))
                      (get (fleet_size cd) (dec 10)));
       ("fugitive"%string,
        FugitivePayload (get (refrigerant_leakage cd) (dec 5)))].
Proof.
  unfold calculate_scope1_emissions, call_emission_api, json_co2e, lift, ret, bind.
  cbv zeta.
  destruct (post_emission svc "stationary" _ token) as [r1|e1];
    cbv beta iota; [|discriminate].
  destruct (status_code r1 =? 200)%Z; [destruct (co2e r1)|]; cbv beta iota;
    try discriminate;
    (destruct (post_emission svc "mobile" _ token) as [r2|e2];
     cbv beta iota; [|discriminate]);
    (destruct (status_code r2 =? 200)%Z; [destruct (co2e r2)|]; cbv beta iota;
     try discriminate);
    (destruct (post_emission svc "fugitive" _ token) as [r3|e3];
     cbv beta iota; [|discriminate]);
    (destruct (status_code r3 =? 200)%Z; [destruct (co2e r3)|]; cbv beta iota;
     try discriminate);
    reflexivity.
Qed.

Lemma calculate_scope2_calls (svc : service) (token : string)
    (cd : company_data_t) (x : Qc * Qc) :
  outcome (calculate_scope2_emissions svc token cd) = Ok x ->
  calls (calculate_scope2_emissions svc token cd)
    = [("location_based"%string,
        LocationPayload (get (electricity_consumption cd) (dec 500000))
                        (get (location cd) default_location));
       ("market_based"%string,
        MarketPayload (get (electricity_consumption cd) (dec 500000))
                      (get (electricity_consumption cd) (dec 500000)
                       * (1 - get (renewable_energy_percent cd) (dec 30) / dec 100))
                      (get (electricity_consumption cd) (dec 500000)
                       * (get (renewable_energy_percent cd) (dec 30) / dec 100))
                      0)].
Proof.
  unfold calculate_scope2_emissions, call_emission_api, json_co2e, lift, ret, bind.
  cbv zeta.
  destruct (post_emission svc "location_based" _ token) as [r1|e1];
    cbv beta iota; [|discriminate].
  destruct (status_code r1 =? 200)%Z; [destruct (co2e r1)|]; cbv beta iota;
    try discriminate;
    (destruct (post_emission svc "market_based" _ token) as [r2|e2];
     cbv beta iota; [|discriminate]);
    (destruct (status_code r2 =? 200)%Z; [destruct (co2e r2)|]; cbv beta iota;
     try discriminate);
    reflexivity.
Qed.

(** X15: a completed run has made exactly six emission requests, in this
    order: stationary, mobile and fugitive for Scope 1, location-based and
    market-based for Scope 2, business travel for Scope 3. *)
Theorem completed_run_requests (svc : service) (cd : company_data_t)
    (r : run_report) :
  outcome (run svc cd) = Ok (Some r) ->
  map fst (calls (run svc cd)) =
    ["stationary"%string; "mobile"%string; "fugitive"%string;
     "location_based"%string; "market_based"%string; "business_travel"%string].
Proof.
  intros H. apply run_inv_steps in H.
  destruct H as (token & n & ret & _ & _ & H1 & H2 & _ & _ & _ & _ & _ & Hc).
  rewrite Hc, !map_app.
  apply calculate_scope1_calls in H1. apply calculate_scope2_calls in H2.
  apply (f_equal (map fst)) in H1. apply (f_equal (map fst)) in H2.
  pose proof (f_equal (map fst) (scope3_single_request svc token cd)) as H3.
  exact (f_equal2 (@app string) H1 (f_equal2 (@app string) H2 H3)).
Qed.

Lemma completed_run_requests_witness :
  exists r,
    outcome (run svc_partial invalid_company_data) = Ok (Some r) /\
    map fst (calls (run svc_partial invalid_company_data)) =
      ["stationary"%string; "mobile"%string; "fugitive"%string;
       "location_based"%string; "market_based"%string; "business_travel"%string].
Proof.
  destruct (outcome (run svc_partial invalid_company_data)) as [[r|]|e] eqn:E;
    [ | vm_compute in E; discriminate E | vm_compute in E; discriminate E ].
  exists r. split; [reflexivity|].
  exact (completed_run_requests svc_partial invalid_company_data r E).
Defined.




(** ** Signs and bounds *)

Lemma Qcinv_pos (t : Qc) : 0 < t -> 0 < / t.
Proof.
  intros Ht. destruct (Qclt_le_dec 0 (/ t)) as [H | H]; [exact H|].
  exfalso.
  assert (H1 : / t * t <= 0 * t)
    by (apply Qcmult_le_compat_r; [exact H | now apply Qclt_le_weak]).
  rewrite Qcmult_inv_l in H1 by now apply Qc_pos_nonzero.
  replace (0 * t) with 0 in H1 by ring.
  revert H1. apply Qclt_not_le. qc_compute.
Qed.

Lemma share_bounded (a t : Qc) :
  0 <= a -> a <= t -> t <> 0 ->
  0 <= a / t * dec 100 /\ a / t * dec 100 <= dec 100.
Proof.
  intros Ha Hat Ht.
  assert (Ht0 : 0 < t).
  { destruct (Qcle_lt_or_eq _ _ (Qcle_trans _ _ _ Ha Hat)) as [H | H];
      [exact H | now symmetry in H]. }
  assert (Hi : 0 <= / t) by (apply Qclt_le_weak; now apply Qcinv_pos).
  assert (H100 : 0 <= dec 100) by qc_compute.
  unfold Qcdiv. split.
  - apply Qcmult_nonneg; [now apply Qcmult_nonneg | exact H100].
  - replace (dec 100) with (1 * dec 100) at 2 by ring.
    apply Qcmult_le_compat_r; [|exact H100].
    rewrite <- (Qcmult_inv_r t Ht).
    now apply Qcmult_le_compat_r.
Qed.

Lemma Qcle_plus_nonneg_r (a b : Qc) : 0 <= b -> a <= a + b.
Proof.
  intros Hb. replace a with (a + 0) at 1 by ring.
  apply Qcplus_le_compat; [apply Qcle_refl | exact Hb].
Qed.

Lemma int_of_le (y : Qc) (k : Z) :
  y <= Q2Qc (inject_Z k) -> (int_of y <= k)%Z.
Proof.
  unfold Qcle, int_of, Q2Qc. cbn [this]. rewrite Qred_correct.
  unfold Qle. cbn [Qnum Qden inject_Z]. rewrite Z.mul_1_r. intros H.
  apply Z.quot_le_upper_bound; [reflexivity|].
  rewrite Z.mul_comm. exact H.
Qed.

(** The bar of a share between 0 and 100 has at most 50 blocks. *)
Lemma bar_fits (pct : Qc) :
  0 <= pct -> pct <= dec 100 -> (int_of (pct / dec 2) <= sys_maxsize)%Z.
Proof.
  intros _ H. apply Z.le_trans with 50%Z; [|vm_compute; discriminate].
  apply int_of_le. unfold Qcdiv.
  replace (Q2Qc (inject_Z 50)) with (dec 100 * / dec 2) by qc_compute.
  apply Qcmult_le_compat_r; [exact H | qc_compute].
Qed.

(** X17: for non-negative scope amounts that are not all 0, the total is
    at least each scope amount and every scope percentage lies between 0
    and 100. *)
Theorem scope_percentages_bounded (scope1 scope2_location scope2_market
    scope3 : Qc) (breakdowns : breakdowns_t) :
  0 <= scope1 -> 0 <= scope2_location -> 0 <= scope3 ->
  scope1 + scope2_location + scope3 <> 0 ->
  exists ret rep,
    analyze_complete_footprint scope1 scope2_location scope2_market scope3
                               breakdowns = Ok (ret, rep) /\
    (scope1 <= fst ret /\ scope2_location <= fst ret /\ scope3 <= fst ret) /\
    (0 <= scope1_pct rep /\ scope1_pct rep <= dec 100) /\
    (0 <= scope2_pct rep /\ scope2_pct rep <= dec 100) /\
    (0 <= scope3_pct rep /\ scope3_pct rep <= dec 100).
Proof.
  intros H1 H2 H3 Ht.
  assert (L1 : scope1 <= scope1 + scope2_location + scope3).
  { rewrite <- Qcplus_assoc. apply Qcle_plus_nonneg_r.
    replace 0 with (0 + 0) by ring. now apply Qcplus_le_compat. }
  assert (L2 : scope2_location <= scope1 + scope2_location + scope3).
  { replace (scope1 + scope2_location + scope3)
      with (scope2_location + (scope1 + scope3)) by ring.
    apply Qcle_plus_nonneg_r.
    replace 0 with (0 + 0) by ring. now apply Qcplus_le_compat. }
  assert (L3 : scope3 <= scope1 + scope2_location + scope3).
  { replace (scope1 + scope2_location + scope3)
      with (scope3 + (scope1 + scope2_location)) by ring.
    apply Qcle_plus_nonneg_r.
    replace 0 with (0 + 0) by ring. now apply Qcplus_le_compat. }
  pose proof (share_bounded _ _ H1 L1 Ht) as [P1 Q1].
  pose proof (share_bounded _ _ H2 L2 Ht) as [P2 Q2].
  pose proof (share_bounded _ _ H3 L3 Ht) as [P3 Q3].
  destruct (analyze_complete_footprint_returns scope1 scope2_location
              scope2_market scope3 breakdowns Ht)
    as (ret & rep & E); try now apply bar_fits.
  exists ret, rep. split; [exact E|].
  apply analyze_complete_footprint_inv in E.
  destruct E as (_ & -> & _ & -> & -> & -> & _).
  cbn [fst]. now repeat split.
Qed.

Lemma scope_percentages_bounded_witness :
  exists ret rep,
    analyze_complete_footprint (dec 100) (dec 250) (dec 175) (dec 650)
      {| scope1_bd := []; scope3_bd := [] |} = Ok (ret, rep) /\
    0 <= scope3_pct rep /\ scope3_pct rep <= dec 100.
Proof.
  destruct (scope_percentages_bounded (dec 100) (dec 250) (dec 175) (dec 650)
              {| scope1_bd := []; scope3_bd := [] |})
    as (ret & rep & E & _ & _ & _ & H3);
    [qc_compute | qc_compute | qc_compute | qc_compute |].
  exists ret, rep. split; [exact E | exact H3].
Defined.

Lemma sum_from (xs : list Qc) (a : Qc) :
  fold_left Qcplus xs a = a + fold_left Qcplus xs 0.
Proof.
  revert a. induction xs as [|x xs IH]; intros a; cbn [fold_left]; [ring|].
  rewrite (IH (a + x)), (IH (0 + x)). ring.
Qed.

Lemma sum_cons (x : Qc) (xs : list Qc) : sum (x :: xs) = x + sum xs.
Proof. unfold sum. cbn [fold_left]. rewrite sum_from. ring. Qed.

Lemma sum_nonneg (xs : list Qc) : Forall (fun x => 0 <= x) xs -> 0 <= sum xs.
Proof.
  induction 1 as [|x xs Hx _ IH]; [unfold sum; cbn [fold_left]; apply Qcle_refl|].
  rewrite sum_cons. replace 0 with (0 + 0) by ring.
  now apply Qcplus_le_compat.
Qed.

Lemma sum_ge_member (xs : list Qc) (x : Qc) :
  Forall (fun y => 0 <= y) xs -> In x xs -> x <= sum xs.
Proof.
  induction 1 as [|y xs Hy Hxs IH]; intros Hin; [contradiction|].
  rewrite sum_cons. destruct Hin as [-> | Hin].
  - apply Qcle_plus_nonneg_r. now apply sum_nonneg.
  - rewrite Qcplus_comm. apply Qcle_trans with (sum xs); [now apply IH|].
    now apply Qcle_plus_nonneg_r.
Qed.

Ltac nonneg :=
  match goal with
  | |- _ <= ?a * ?b => apply Qcmult_nonneg; nonneg
  | |- _ => first [assumption | apply Qcle_refl | qc_compute]
  end.

(** X18: when the quantities Scope 3 reads from the profile are
    non-negative and the service reports no negative business-travel
    amount, every amount of a Scope 3 breakdown is non-negative and none
    exceeds the Scope 3 subtotal. *)
Theorem scope3_amounts_nonnegative (svc : service) (token : string)
    (cd : company_data_t) (total : Qc) (bd : dict) :
  nonnegative_scope3_inputs cd ->
  (forall r v,
      post_emission svc "business_travel"
        (BusinessTravelPayload (get (annual_air_miles cd) (dec 500000))) token
      = Ok r ->
      co2e r = Some v -> 0 <= v) ->
  outcome (calculate_scope3_emissions svc token cd) = Ok (total, bd) ->
  0 <= total /\
  forall category a, In (category, a) bd -> 0 <= a /\ a <= total.
Proof.
  intros (Hps & Hce & Hec & Ham & Hcm & Hsold & Hlife & Hw) Hsvc H.
  pose proof (calculate_scope3_outcome _ _ _ _ _ H) as (_ & _ & _ & bt & Hg & Hbt).
  pose proof (calculate_scope3_shape _ _ _ _ _ H) as (bt' & opt & Hbd & Hopt & Ht).
  assert (Hsame : bt' = bt).
  { rewrite Hbd in Hg.
    cbn [dict_get app String.eqb Ascii.eqb Bool.eqb] in Hg.
    now apply (f_equal (fun o => match o with Some v => v | None => bt end)) in Hg. }
  subst bt'.
  assert (Hbt0 : 0 <= bt).
  { destruct (post_emission svc "business_travel" _ token) as [r|e] eqn:E.
    - rewrite (Hbt r eq_refl).
      destruct (status_code r =? 200)%Z.
      + destruct (co2e r) as [v|] eqn:Ev; cbn [get];
          [exact (Hsvc r v eq_refl Ev) | apply Qcle_refl].
      + apply Qcmult_nonneg; [exact Ham | qc_compute].
    - exfalso. revert H.
      unfold calculate_scope3_emissions, call_emission_api, bind. cbv zeta.
      rewrite E. discriminate. }
  assert (Hall : Forall (fun x => 0 <= x) (values bd)).
  { rewrite Hbd, Hopt. unfold values. rewrite !map_app.
    apply Forall_app; split; [|apply Forall_app; split].
    - cbn [map snd]. repeat apply Forall_cons; try apply Forall_nil; nonneg.
    - destruct (get (sells_energy_using_products cd) false); cbn [map snd];
        repeat apply Forall_cons; try apply Forall_nil; nonneg.
    - destruct (get (sells_physical_products cd) false); cbn [map snd];
        repeat apply Forall_cons; try apply Forall_nil; nonneg. }
  split; [rewrite Ht; now apply sum_nonneg|].
  intros category a Hin.
  assert (Hv : In a (values bd)).
  { unfold values. apply in_map_iff. exists (category, a). now split. }
  split.
  - rewrite Forall_forall in Hall. now apply Hall.
  - rewrite Ht. now apply sum_ge_member.
Qed.

Lemma scope3_amounts_nonnegative_witness :
  nonnegative_scope3_inputs example_company_data /\
  exists total bd,
    outcome (calculate_scope3_emissions svc_partial "token" example_company_data)
      = Ok (total, bd) /\
    0 <= total /\
    forall category a, In (category, a) bd -> 0 <= a /\ a <= total.
Proof.
  assert (Hp : nonnegative_scope3_inputs example_company_data).
  { repeat split; qc_compute. }
  split; [exact Hp|].
  destruct (outcome (calculate_scope3_emissions svc_partial "token"
                       example_company_data)) as [[total bd]|e] eqn:E;
    [|vm_compute in E; discriminate E].
  exists total, bd. split; [reflexivity|].
  apply (scope3_amounts_nonnegative svc_partial "token" example_company_data
           total bd Hp); [|exact E].
  intros r v Hr Hv. apply Ok_inj in Hr. subst r.
  cbn [co2e] in Hv.
  apply (f_equal (fun o => match o with Some x => x | None => v end)) in Hv.
  cbv beta iota in Hv. rewrite <- Hv. qc_compute.
Defined.

(** X16: a run completes whenever a token is granted, the three scope
    calculators return non-negative amounts, the location-based Scope 2
    amount is positive and the profile has a nonzero employee count.  Its
    report then holds the calculators' results unchanged, the total divided
    by the employee count, the Scope 3 share of the total and the
    percentage by which the market-based amount is below the location-based
    one. *)
Theorem run_completes (svc : service) (cd : company_data_t) (token : string)
    (s1 s2l s2m s3 n : Qc) (b1 b3 : dict) :
  get_auth_token svc = Ok (Some token) ->
  token <> ""%string ->
  outcome (calculate_scope1_emissions svc token cd) = Ok (s1, b1) ->
  outcome (calculate_scope2_emissions svc token cd) = Ok (s2l, s2m) ->
  outcome (calculate_scope3_emissions svc token cd) = Ok (s3, b3) ->
  0 <= s1 -> 0 < s2l -> 0 <= s3 ->
  employee_count cd = Some n ->
  n <> 0 ->
  exists r,
    outcome (run svc cd) = Ok (Some r) /\
    run_scope1 r = (s1, b1) /\
    run_scope2 r = (s2l, s2m) /\
    run_scope3 r = (s3, b3) /\
    per_employee r = (s1 + s2l + s3) / n /\
    scope3_share r = s3 / (s1 + s2l + s3) * dec 100 /\
    renewable_effect r = (s2l - s2m) / s2l * dec 100.
Proof.
  intros Ht Hne H1 H2 H3 P1 P2 P3 Hn Hn0.
  assert (Hs2 : s2l <> 0) by now apply Qc_pos_nonzero.
  assert (P2' : 0 <= s2l) by now apply Qclt_le_weak.
  assert (L1 : s1 <= s1 + s2l + s3).
  { rewrite <- Qcplus_assoc. apply Qcle_plus_nonneg_r.
    replace 0 with (0 + 0) by ring. now apply Qcplus_le_compat. }
  assert (L2 : s2l <= s1 + s2l + s3).
  { replace (s1 + s2l + s3) with (s2l + (s1 + s3)) by ring.
    apply Qcle_plus_nonneg_r.
    replace 0 with (0 + 0) by ring. now apply Qcplus_le_compat. }
  assert (L3 : s3 <= s1 + s2l + s3).
  { replace (s1 + s2l + s3) with (s3 + (s1 + s2l)) by ring.
    apply Qcle_plus_nonneg_r.
    replace 0 with (0 + 0) by ring. now apply Qcplus_le_compat. }
  assert (Htot : s1 + s2l + s3 <> 0).
  { apply Qc_pos_nonzero. now apply Qclt_le_trans with s2l. }
  pose proof (share_bounded _ _ P1 L1 Htot) as [A1 B1].
  pose proof (share_bounded _ _ P2' L2 Htot) as [A2 B2].
  pose proof (share_bounded _ _ P3 L3 Htot) as [A3 B3].
  destruct (analyze_complete_footprint_returns s1 s2l s2m s3
              {| scope1_bd := b1; scope3_bd := b3 |} Htot)
    as (ret & footprint & Ha); try now apply bar_fits.
  pose proof (analyze_complete_footprint_inv _ _ _ _ _ _ _ Ha) as (_ & Hret & _).
  subst ret.
  destruct (calculate_reduction_pathway_pace _ Htot) as (pw & Ep & _).
  destruct (create_reduction_roadmap_ok s1 s2l s3
              {| scope1_bd := b1; scope3_bd := b3 |} Htot) as (rm & Er & _).
  unfold run. rewrite outcome_bind, outcome_lift, Ht.
  destruct token as [|c token]; [contradiction|].
  rewrite outcome_bind, H1. rewrite outcome_bind, H2. rewrite outcome_bind, H3.
  cbv zeta.
  rewrite outcome_bind, outcome_lift, Ha.
  rewrite outcome_bind, outcome_lift, Ep.
  rewrite outcome_bind, outcome_lift, Er.
  rewrite outcome_bind, Hn. cbn [outcome ret snd].
  rewrite outcome_bind, outcome_lift, (div_ok _ _ Hn0).
  rewrite outcome_bind, outcome_lift, (div_ok _ _ Htot).
  rewrite outcome_bind, outcome_lift, (div_ok _ _ Hs2).
  eexists. split; [reflexivity|].
  cbn [run_scope1 run_scope2 run_scope3 per_employee scope3_share
       renewable_effect].
  repeat split.
Qed.

Lemma run_completes_witness :
  exists r,
    outcome (run svc_partial office_company_data) = Ok (Some r) /\
    fst (run_scope3 r) = dec 572.132 /\
    per_employee r = dec 922.132 / dec 22 /\
    renewable_effect r = dec 30.
Proof.
  edestruct (run_completes svc_partial office_company_data "token")
    as (r & E & _ & _ & H3 & Hp & _ & Hr).
  - reflexivity.
  - discriminate.
  - reflexivity.
  - reflexivity.
  - reflexivity.
  - qc_compute.
  - qc_compute.
  - qc_compute.
  - reflexivity.
  - qc_compute.
  - exists r. split; [exact E|]. split; [|split].
    + rewrite H3. cbn [fst]. qc_compute.
    + rewrite Hp. qc_compute.
    + rewrite Hr. qc_compute.
Defined.
